(** * vmath.ts: vectors, quaternions and matrices over host-managed data

    A shallow embedding of [packages/core/src/vmath.ts].  A JavaScript
    [number] is an IEEE 754 binary64 value, here a primitive [float].
    Class instances and the host's backing values live in one store, so
    that identity, aliasing and in-place updates are visible; a method is
    a computation over that store which returns a value or throws. *)

From Stdlib Require Import Floats ZArith Lia.
From stdpp Require Import base list strings.

Local Open Scope string_scope.
Local Open Scope list_scope.

(** ** Values and the store *)

(** Objects are referred to by their place in the store. *)
Abbreviation loc := nat.

Inductive value :=
| VUndefined
| VNull
| VBoolean (b : bool)
| VNumber (n : float)
| VString (s : string)
| VRef (l : loc).

(** The four exported classes. *)
Inductive class := CVector3 | CVector4 | CQuaternion | CMatrix4.

Definition class_eqb (c1 c2 : class) : bool :=
  match c1, c2 with
  | CVector3, CVector3 | CVector4, CVector4
  | CQuaternion, CQuaternion | CMatrix4, CMatrix4 => true
  | _, _ => false
  end.

Definition class_name (c : class) : string :=
  match c with
  | CVector3 => "Vector3"
  | CVector4 => "Vector4"
  | CQuaternion => "Quaternion"
  | CMatrix4 => "Matrix4"
  end.

(** The fields of [Vector3.Data], and of [Vector4.Data] and
    [Quaternion.Data]. *)
Record vec3 := Vec3 { v3x : float; v3y : float; v3z : float }.
Record vec4 := Vec4 { v4x : float; v4y : float; v4z : float; v4w : float }.

(** Modelled from the spec: what the host keeps for a [Matrix4.Data],
    which the source only declares: "4 column vectors (Vector4 each)
    equivalently 16 scalar components m00..m33".  The four columns are
    what the fields [c0..c3] read and write; how the sixteen scalar
    fields name their entries is [field] below. *)
Record mat4 := Mat4 { col0 : vec4; col1 : vec4; col2 : vec4; col3 : vec4 }.

(** Modelled from the spec: what the host keeps behind a [Data]
    reference, "a plain struct of named numeric fields" per type. *)
Inductive cell :=
| HVector3 (a : vec3)
| HVector4 (a : vec4)
| HQuat (a : vec4)
| HMatrix4 (a : mat4).

(** A store entry: an instance of one of the classes with its [data]
    field, a host value, or some other object. *)
Inductive object :=
| Instance (c : class) (data : value)
| Userdata (c : cell)
| Plain.

Abbreviation heap := (list object).

(** ** Computations *)

(** What a computation throws: [TypeError(message)], or the fault the
    engine or the host raises where the source gives no meaning to the
    step (a property of [undefined], a field the backing value lacks,
    arguments the host rejects). *)
Inductive exn :=
| TypeError (message : string)
| Fault.

Inductive outcome (A : Type) :=
| Return (a : A)
| Throw (e : exn).
Arguments Return {A} a.
Arguments Throw {A} e.

Definition M (A : Type) : Type := heap -> outcome A * heap.

Definition ret {A} (a : A) : M A := fun h => (Return a, h).

Definition throw {A} (e : exn) : M A := fun h => (Throw e, h).

Definition bind {A B} (m : M A) (k : A -> M B) : M B :=
  fun h =>
    match m h with
    | (Return a, h') => k a h'
    | (Throw e, h') => (Throw e, h')
    end.

Notation "'do' x <- m ; k" := (bind m (fun x => k))
  (at level 10, x name, m at level 100, k at level 200, only parsing).
Notation "'run' m ; k" := (bind m (fun _ => k))
  (at level 10, m at level 100, k at level 200, only parsing).

Definition alloc (o : object) : M value :=
  fun h => (Return (VRef (length h)), h ++ [o]).

Definition load (v : value) : M object :=
  fun h =>
    match v with
    | VRef l => match h !! l with
                | Some o => (Return o, h)
                | None => (Throw Fault, h)
                end
    | _ => (Throw Fault, h)
    end.

Definition store (v : value) (o : object) : M unit :=
  fun h =>
    match v with
    | VRef l => match h !! l with
                | Some _ => (Return tt, <[l := o]> h)
                | None => (Throw Fault, h)
                end
    | _ => (Throw Fault, h)
    end.

(** [typeof v] *)
Definition typeof (v : value) : string :=
  match v with
  | VUndefined => "undefined"
  | VNull => "object"
  | VBoolean _ => "boolean"
  | VNumber _ => "number"
  | VString _ => "string"
  | VRef _ => "object"
  end.

(** [v instanceof c]: never throws, false on primitives and on objects
    of another kind. *)
Definition instanceof (v : value) (c : class) : M bool :=
  fun h =>
    match v with
    | VRef l => match h !! l with
                | Some (Instance c' _) => (Return (class_eqb c' c), h)
                | _ => (Return false, h)
                end
    | _ => (Return false, h)
    end.

(** [this.data] and [this.data = d] *)
Definition get_data (this : value) : M value :=
  do o <- load this;
  match o with
  | Instance _ d => ret d
  | _ => throw Fault
  end.

Definition set_data (this d : value) : M unit :=
  do o <- load this;
  match o with
  | Instance c _ => store this (Instance c d)
  | _ => throw Fault
  end.

(** [new C(...)]: the instance exists, with no [data] yet, before the
    constructor body runs. *)
Definition new_instance (c : class) (constructor : value -> M unit) : M value :=
  do this <- alloc (Instance c VUndefined);
  run constructor this;
  ret this.

(** ** The host: backing values and [lua.vmath] *)

Inductive idx := I0 | I1 | I2 | I3.

(** The numeric fields of a backing value: [x], [y], [z], [w], and the
    sixteen [m<a><b>] of a matrix, [Km a b] for the digits [a] and
    [b]. *)
Inductive key :=
| Kx | Ky | Kz | Kw
| Km (a b : idx).

Definition nth4 (a : vec4) (i : idx) : float :=
  match i with
  | I0 => v4x a
  | I1 => v4y a
  | I2 => v4z a
  | I3 => v4w a
  end.

Definition upd4 (a : vec4) (i : idx) (n : float) : vec4 :=
  match i with
  | I0 => Vec4 n (v4y a) (v4z a) (v4w a)
  | I1 => Vec4 (v4x a) n (v4z a) (v4w a)
  | I2 => Vec4 (v4x a) (v4y a) n (v4w a)
  | I3 => Vec4 (v4x a) (v4y a) (v4z a) n
  end.

Definition column (m : mat4) (c : idx) : vec4 :=
  match c with
  | I0 => col0 m
  | I1 => col1 m
  | I2 => col2 m
  | I3 => col3 m
  end.

Definition set_column (m : mat4) (c : idx) (a : vec4) : mat4 :=
  match c with
  | I0 => Mat4 a (col1 m) (col2 m) (col3 m)
  | I1 => Mat4 (col0 m) a (col2 m) (col3 m)
  | I2 => Mat4 (col0 m) (col1 m) a (col3 m)
  | I3 => Mat4 (col0 m) (col1 m) (col2 m) a
  end.

Definition identity4 : mat4 :=
  Mat4 (Vec4 1 0 0 0) (Vec4 0 1 0 0) (Vec4 0 0 1 0) (Vec4 0 0 0 1).

(** Modelled from the spec: the scalar field [m<a><b>] of a matrix
    value.  The specification gives the sixteen scalars as another view
    of the four columns, "column-major"; which of the two digits counts
    the column is the host's matter, and neither the source nor the
    specification says it.  The first digit is taken for the column
    here, so that [m<a>0..m<a>3] are the components of [c<a>].  This is
    the one place where that choice is made: what is stated below about
    [Matrix4.mul] is stated over [field], that is over the scalar
    fields by their names, and says nothing about rows except where it
    names [row] or [mat_vec]. *)
Definition field (m : mat4) (a b : idx) : float :=
  nth4 (column m a) b.

(** Modelled from the spec: a write to the scalar field [m<a><b>], the
    counterpart of [field]. *)
Definition set_field (m : mat4) (a b : idx) (n : float) : mat4 :=
  set_column m a (upd4 (column m a) b n).

(** Modelled from the spec: the numeric fields of each kind of backing
    value, read ([cell_get]) and written ([cell_set]). *)
Definition cell_get (c : cell) (k : key) : option float :=
  match c, k with
  | HVector3 a, Kx => Some (v3x a)
  | HVector3 a, Ky => Some (v3y a)
  | HVector3 a, Kz => Some (v3z a)
  | HVector4 a, Kx | HQuat a, Kx => Some (v4x a)
  | HVector4 a, Ky | HQuat a, Ky => Some (v4y a)
  | HVector4 a, Kz | HQuat a, Kz => Some (v4z a)
  | HVector4 a, Kw | HQuat a, Kw => Some (v4w a)
  | HMatrix4 m, Km a b => Some (field m a b)
  | _, _ => None
  end.

(** Modelled from the spec: a write to a numeric field of a backing
    value, a scalar field of a matrix through [set_field]. *)
Definition cell_set (c : cell) (k : key) (n : float) : option cell :=
  match c, k with
  | HVector3 a, Kx => Some (HVector3 (Vec3 n (v3y a) (v3z a)))
  | HVector3 a, Ky => Some (HVector3 (Vec3 (v3x a) n (v3z a)))
  | HVector3 a, Kz => Some (HVector3 (Vec3 (v3x a) (v3y a) n))
  | HVector4 a, Kx => Some (HVector4 (upd4 a I0 n))
  | HVector4 a, Ky => Some (HVector4 (upd4 a I1 n))
  | HVector4 a, Kz => Some (HVector4 (upd4 a I2 n))
  | HVector4 a, Kw => Some (HVector4 (upd4 a I3 n))
  | HQuat a, Kx => Some (HQuat (upd4 a I0 n))
  | HQuat a, Ky => Some (HQuat (upd4 a I1 n))
  | HQuat a, Kz => Some (HQuat (upd4 a I2 n))
  | HQuat a, Kw => Some (HQuat (upd4 a I3 n))
  | HMatrix4 m, Km a b => Some (HMatrix4 (set_field m a b n))
  | _, _ => None
  end.

Module lua.

(** Modelled from the spec: the host's reading of a numeric field of a
    backing value, [d.k]; the host is outside the repository.  A
    backing value has "flat named numeric fields per type". *)
Definition index (d : value) (k : key) : M float :=
  do o <- load d;
  match o with
  | Userdata c =>
      match cell_get c k with
      | Some n => ret n
      | None => throw Fault
      end
  | _ => throw Fault
  end.

(** Modelled from the spec: the host's assignment [d.k = n] to a
    numeric field, which updates the backing value in place. *)
Definition newindex (d : value) (k : key) (n : float) : M unit :=
  do o <- load d;
  match o with
  | Userdata c =>
      match cell_set c k n with
      | Some c' => store d (Userdata c')
      | None => throw Fault
      end
  | _ => throw Fault
  end.

(** Modelled from the spec: the three components the host reads off a
    3-vector argument, given as a backing value or as an instance over
    one. *)
Definition components3 (v : value) : M vec3 :=
  do o <- load v;
  match o with
  | Userdata (HVector3 a) => ret a
  | Instance CVector3 d =>
      do o' <- load d;
      match o' with
      | Userdata (HVector3 a) => ret a
      | _ => throw Fault
      end
  | _ => throw Fault
  end.

(** Modelled from the spec: the four components the host reads off a
    4-vector or quaternion argument, given as a backing value or as an
    instance over one. *)
Definition components4 (v : value) : M vec4 :=
  do o <- load v;
  match o with
  | Userdata (HVector4 a) | Userdata (HQuat a) => ret a
  | Instance CVector4 d | Instance CQuaternion d =>
      do o' <- load d;
      match o' with
      | Userdata (HVector4 a) | Userdata (HQuat a) => ret a
      | _ => throw Fault
      end
  | _ => throw Fault
  end.

(** Modelled from the spec: the matrix the host reads off a matrix
    argument, given as a backing value or as an instance over one. *)
Definition components16 (v : value) : M mat4 :=
  do o <- load v;
  match o with
  | Userdata (HMatrix4 a) => ret a
  | Instance CMatrix4 d =>
      do o' <- load d;
      match o' with
      | Userdata (HMatrix4 a) => ret a
      | _ => throw Fault
      end
  | _ => throw Fault
  end.

(** Modelled from the spec: reading a column field [d.c<i>] of a
    matrix backing value gives a 4-vector backing value holding that
    column ("4 column vectors, equivalently 16 scalar components"). *)
Definition index_column (d : value) (i : idx) : M value :=
  do o <- load d;
  match o with
  | Userdata (HMatrix4 m) => alloc (Userdata (HVector4 (column m i)))
  | _ => throw Fault
  end.

(** Modelled from the spec: assigning a column field [d.c<i> = v]
    writes the four components of [v] into that column of the same
    backing value. *)
Definition newindex_column (d : value) (i : idx) (v : value) : M unit :=
  do a <- components4 v;
  do o <- load d;
  match o with
  | Userdata (HMatrix4 m) => store d (Userdata (HMatrix4 (set_column m i a)))
  | _ => throw Fault
  end.

Module vmath.

(** Modelled from the spec: [lua.vmath.vector3(1, x, y, z)], as the
    constructor's overloads document it: no argument gives the zero
    vector, one number is splat, three numbers are the components,
    an existing vector is copied. *)
Definition vector3 (x y z : value) : M value :=
  match x, y, z with
  | VUndefined, VUndefined, VUndefined =>
      alloc (Userdata (HVector3 (Vec3 0 0 0)))
  | VNumber n, VUndefined, VUndefined =>
      alloc (Userdata (HVector3 (Vec3 n n n)))
  | VNumber a, VNumber b, VNumber c =>
      alloc (Userdata (HVector3 (Vec3 a b c)))
  | VRef _, VUndefined, VUndefined =>
      do a <- components3 x;
      alloc (Userdata (HVector3 a))
  | _, _, _ => throw Fault
  end.

(** Modelled from the spec: [lua.vmath.vector4(1, x, y, z, w)], with
    the same overloads as [vector3]. *)
Definition vector4 (x y z w : value) : M value :=
  match x, y, z, w with
  | VUndefined, VUndefined, VUndefined, VUndefined =>
      alloc (Userdata (HVector4 (Vec4 0 0 0 0)))
  | VNumber n, VUndefined, VUndefined, VUndefined =>
      alloc (Userdata (HVector4 (Vec4 n n n n)))
  | VNumber a, VNumber b, VNumber c, VNumber d =>
      alloc (Userdata (HVector4 (Vec4 a b c d)))
  | VRef _, VUndefined, VUndefined, VUndefined =>
      do a <- components4 x;
      alloc (Userdata (HVector4 a))
  | _, _, _, _ => throw Fault
  end.

(** Modelled from the spec: [lua.vmath.quat(1, x, y, z, w)]: no
    argument gives the identity quaternion [(0, 0, 0, 1)], four
    numbers are the components, an existing quaternion is copied. *)
Definition quat (x y z w : value) : M value :=
  match x, y, z, w with
  | VUndefined, VUndefined, VUndefined, VUndefined =>
      alloc (Userdata (HQuat (Vec4 0 0 0 1)))
  | VNumber a, VNumber b, VNumber c, VNumber d =>
      alloc (Userdata (HQuat (Vec4 a b c d)))
  | VRef _, VUndefined, VUndefined, VUndefined =>
      do a <- components4 x;
      alloc (Userdata (HQuat a))
  | _, _, _, _ => throw Fault
  end.

(** Modelled from the spec: [lua.vmath.matrix4(1)] gives the
    identity matrix and [lua.vmath.matrix4(1, m)] a copy of [m]. *)
Definition matrix4 (x : value) : M value :=
  match x with
  | VUndefined => alloc (Userdata (HMatrix4 identity4))
  | VRef _ =>
      do a <- components16 x;
      alloc (Userdata (HMatrix4 a))
  | _ => throw Fault
  end.

End vmath.
End lua.

(** ** The classes

    The methods are embedded at their declared parameter types.  A
    parameter declared [number] is a [float]; a property read such as
    [v2.w] in [Vector4.add] is the accessor of the class [v2] is
    declared with.  An argument of another type is outside this
    embedding: there JavaScript looks the property up on the argument
    itself, reads [undefined] where its class has no such accessor and
    computes with [NaN], which the definitions below do not follow, and
    nothing is stated about such calls.  The dispatched operators at
    the end are the exception: they take any value and test it. *)

Local Open Scope float_scope.

(** The guard shared by the vector and quaternion constructors:
    [typeof x === 'undefined' || typeof x === 'number' || x instanceof C] *)
Definition undefined_number_or (c : class) (x : value) : M bool :=
  if String.eqb (typeof x) "undefined" then ret true
  else if String.eqb (typeof x) "number" then ret true
  else instanceof x c.

Module Vector3.

Definition get_x (this : value) : M float := do d <- get_data this; lua.index d Kx.
Definition set_x (this : value) (x : float) : M unit := do d <- get_data this; lua.newindex d Kx x.
Definition get_y (this : value) : M float := do d <- get_data this; lua.index d Ky.
Definition set_y (this : value) (y : float) : M unit := do d <- get_data this; lua.newindex d Ky y.
Definition get_z (this : value) : M float := do d <- get_data this; lua.index d Kz.
Definition set_z (this : value) (z : float) : M unit := do d <- get_data this; lua.newindex d Kz z.

Definition constructor (x y z : value) (this : value) : M unit :=
  do b <- undefined_number_or CVector3 x;
  if b then
    do d <- lua.vmath.vector3 x y z;
    set_data this d
  else
    set_data this x.

(** [new Vector3(x, y, z)]; a missing argument is [VUndefined]. *)
Definition new (x y z : value) : M value :=
  new_instance CVector3 (constructor x y z).

Definition add (v1 v2 : value) : M value :=
  do x1 <- get_x v1; do x2 <- get_x v2;
  do y1 <- get_y v1; do y2 <- get_y v2;
  do z1 <- get_z v1; do z2 <- get_z v2;
  new (VNumber (x1 + x2)) (VNumber (y1 + y2)) (VNumber (z1 + z2)).

Definition sub (v1 v2 : value) : M value :=
  do x1 <- get_x v1; do x2 <- get_x v2;
  do y1 <- get_y v1; do y2 <- get_y v2;
  do z1 <- get_z v1; do z2 <- get_z v2;
  new (VNumber (x1 - x2)) (VNumber (y1 - y2)) (VNumber (z1 - z2)).

Definition neg (v1 : value) : M value :=
  do x1 <- get_x v1;
  do y1 <- get_y v1;
  do z1 <- get_z v1;
  new (VNumber (- x1)) (VNumber (- y1)) (VNumber (- z1)).

Definition mul (v1 : value) (n : float) : M value :=
  do x1 <- get_x v1;
  do y1 <- get_y v1;
  do z1 <- get_z v1;
  new (VNumber (x1 * n)) (VNumber (y1 * n)) (VNumber (z1 * n)).

Definition div (v1 : value) (n : float) : M value :=
  mul v1 (1 / n).

End Vector3.

Module Vector4.

Definition get_x (this : value) : M float := do d <- get_data this; lua.index d Kx.
Definition set_x (this : value) (x : float) : M unit := do d <- get_data this; lua.newindex d Kx x.
Definition get_y (this : value) : M float := do d <- get_data this; lua.index d Ky.
Definition set_y (this : value) (y : float) : M unit := do d <- get_data this; lua.newindex d Ky y.
Definition get_z (this : value) : M float := do d <- get_data this; lua.index d Kz.
Definition set_z (this : value) (z : float) : M unit := do d <- get_data this; lua.newindex d Kz z.
Definition get_w (this : value) : M float := do d <- get_data this; lua.index d Kw.
Definition set_w (this : value) (w : float) : M unit := do d <- get_data this; lua.newindex d Kw w.

Definition constructor (x y z w : value) (this : value) : M unit :=
  do b <- undefined_number_or CVector4 x;
  if b then
    do d <- lua.vmath.vector4 x y z w;
    set_data this d
  else
    set_data this x.

Definition new (x y z w : value) : M value :=
  new_instance CVector4 (constructor x y z w).

Definition add (v1 v2 : value) : M value :=
  do x1 <- get_x v1; do x2 <- get_x v2;
  do y1 <- get_y v1; do y2 <- get_y v2;
  do z1 <- get_z v1; do z2 <- get_z v2;
  do w1 <- get_w v1; do w2 <- get_w v2;
  new (VNumber (x1 + x2)) (VNumber (y1 + y2)) (VNumber (z1 + z2)) (VNumber (w1 + w2)).

Definition sub (v1 v2 : value) : M value :=
  do x1 <- get_x v1; do x2 <- get_x v2;
  do y1 <- get_y v1; do y2 <- get_y v2;
  do z1 <- get_z v1; do z2 <- get_z v2;
  do w1 <- get_w v1; do w2 <- get_w v2;
  new (VNumber (x1 - x2)) (VNumber (y1 - y2)) (VNumber (z1 - z2)) (VNumber (w1 - w2)).

Definition neg (v1 : value) : M value :=
  do x1 <- get_x v1;
  do y1 <- get_y v1;
  do z1 <- get_z v1;
  do w1 <- get_w v1;
  new (VNumber (- x1)) (VNumber (- y1)) (VNumber (- z1)) (VNumber (- w1)).

Definition mul (v1 : value) (n : float) : M value :=
  do x1 <- get_x v1;
  do y1 <- get_y v1;
  do z1 <- get_z v1;
  do w1 <- get_w v1;
  new (VNumber (x1 * n)) (VNumber (y1 * n)) (VNumber (z1 * n)) (VNumber (w1 * n)).

Definition div (v1 : value) (n : float) : M value :=
  mul v1 (1 / n).

End Vector4.

Module Quaternion.

Definition get_x (this : value) : M float := do d <- get_data this; lua.index d Kx.
Definition set_x (this : value) (x : float) : M unit := do d <- get_data this; lua.newindex d Kx x.
Definition get_y (this : value) : M float := do d <- get_data this; lua.index d Ky.
Definition set_y (this : value) (y : float) : M unit := do d <- get_data this; lua.newindex d Ky y.
Definition get_z (this : value) : M float := do d <- get_data this; lua.index d Kz.
Definition set_z (this : value) (z : float) : M unit := do d <- get_data this; lua.newindex d Kz z.
Definition get_w (this : value) : M float := do d <- get_data this; lua.index d Kw.
Definition set_w (this : value) (w : float) : M unit := do d <- get_data this; lua.newindex d Kw w.

Definition constructor (x y z w : value) (this : value) : M unit :=
  do b <- undefined_number_or CQuaternion x;
  if b then
    do d <- lua.vmath.quat x y z w;
    set_data this d
  else
    set_data this x.

Definition new (x y z w : value) : M value :=
  new_instance CQuaternion (constructor x y z w).

Definition mul (q1 q2 : value) : M value :=
  do x1 <- get_x q1; do y1 <- get_y q1; do z1 <- get_z q1; do w1 <- get_w q1;
  do x2 <- get_x q2; do y2 <- get_y q2; do z2 <- get_z q2; do w2 <- get_w q2;
  new
    (VNumber (w1 * x2 + x1 * w2 + y1 * z2 - z1 * y2))
    (VNumber (w1 * y2 + y1 * w2 + z1 * x2 - x1 * z2))
    (VNumber (w1 * z2 + z1 * w2 + x1 * y2 - y1 * x2))
    (VNumber (w1 * w2 - x1 * x2 - y1 * y2 - z1 * z2)).

End Quaternion.

Module Matrix4.

(** [get c<i>()] wraps the column in a new [Vector4]. *)
Definition get_c (i : idx) (this : value) : M value :=
  do d <- get_data this;
  do c <- lua.index_column d i;
  Vector4.new c VUndefined VUndefined VUndefined.

Definition set_c (i : idx) (this : value) (c : value) : M unit :=
  do d <- get_data this;
  lua.newindex_column d i c.

(** [get m<a><b>()] and [set m<a><b>(n)] *)
Definition get_m (a b : idx) (this : value) : M float :=
  do d <- get_data this;
  lua.index d (Km a b).

Definition set_m (a b : idx) (this : value) (n : float) : M unit :=
  do d <- get_data this;
  lua.newindex d (Km a b) n.

Definition constructor (x y z w : value) (this : value) : M unit :=
  do bm <- instanceof x CMatrix4;
  if bm then
    do d <- lua.vmath.matrix4 x;
    set_data this d
  else
    do bv <- instanceof x CVector4;
    if bv then
      do d <- lua.vmath.matrix4 VUndefined;
      run set_data this d;
      run set_c I0 this x;
      run set_c I1 this y;
      run set_c I2 this z;
      set_c I3 this w
    else
      set_data this x.

Definition new (x y z w : value) : M value :=
  new_instance CMatrix4 (constructor x y z w).

(** The body of [Matrix4.mul], with its recursive calls through
    [self].  [xn] is declared [Matrix4 | Vector4 | number], so the last
    branch is the one for a number; the source does not test for it,
    and an [xn] that is none of the three, on which it would go on to
    multiply by [xn] coerced to a number, is outside the embedding. *)
Definition mul_body (self : value -> value -> M value) (m1 xn : value) : M value :=
  do bm <- instanceof xn CMatrix4;
  if bm then
    do a0 <- get_c I0 xn; do r0 <- self m1 a0;
    do a1 <- get_c I1 xn; do r1 <- self m1 a1;
    do a2 <- get_c I2 xn; do r2 <- self m1 a2;
    do a3 <- get_c I3 xn; do r3 <- self m1 a3;
    new r0 r1 r2 r3
  else
    do bv <- instanceof xn CVector4;
    if bv then
      do m00 <- get_m I0 I0 m1; do m01 <- get_m I0 I1 m1;
      do m02 <- get_m I0 I2 m1; do m03 <- get_m I0 I3 m1;
      do m10 <- get_m I1 I0 m1; do m11 <- get_m I1 I1 m1;
      do m12 <- get_m I1 I2 m1; do m13 <- get_m I1 I3 m1;
      do m20 <- get_m I2 I0 m1; do m21 <- get_m I2 I1 m1;
      do m22 <- get_m I2 I2 m1; do m23 <- get_m I2 I3 m1;
      do m30 <- get_m I3 I0 m1; do m31 <- get_m I3 I1 m1;
      do m32 <- get_m I3 I2 m1; do m33 <- get_m I3 I3 m1;
      do x <- Vector4.get_x xn; do y <- Vector4.get_y xn;
      do z <- Vector4.get_z xn; do w <- Vector4.get_w xn;
      Vector4.new
        (VNumber (m00 * x + m10 * y + m20 * z + m30 * w))
        (VNumber (m01 * x + m11 * y + m21 * z + m31 * w))
        (VNumber (m02 * x + m12 * y + m22 * z + m32 * w))
        (VNumber (m03 * x + m13 * y + m23 * z + m33 * w))
    else
      match xn with
      | VNumber n =>
          do a0 <- get_c I0 m1; do r0 <- Vector4.mul a0 n;
          do a1 <- get_c I1 m1; do r1 <- Vector4.mul a1 n;
          do a2 <- get_c I2 m1; do r2 <- Vector4.mul a2 n;
          do a3 <- get_c I3 m1; do r3 <- Vector4.mul a3 n;
          new r0 r1 r2 r3
      | _ => throw Fault
      end.

(** [Matrix4.mul]: the matrix branch calls [Matrix4.mul] on columns,
    which are [Vector4] instances, so the calls nest one deep. *)
Definition mul : value -> value -> M value :=
  mul_body (mul_body (fun _ _ => throw Fault)).

End Matrix4.

(** ** The dispatched operators

    [typeof b === 'number'] is the match on [VNumber]. *)

Definition add (a b : value) : M value :=
  do a3 <- instanceof a CVector3;
  if a3 then
    do b3 <- instanceof b CVector3;
    if b3 then Vector3.add a b
    else throw (TypeError "Vector3 should add Vector3")
  else
    do a4 <- instanceof a CVector4;
    if a4 then
      do b4 <- instanceof b CVector4;
      if b4 then Vector4.add a b
      else throw (TypeError "Vector4 should add Vector4")
    else throw (TypeError "not supported").

Definition sub (a b : value) : M value :=
  do a3 <- instanceof a CVector3;
  if a3 then
    do b3 <- instanceof b CVector3;
    if b3 then Vector3.sub a b
    else throw (TypeError "Vector3 should subtract Vector3")
  else
    do a4 <- instanceof a CVector4;
    if a4 then
      do b4 <- instanceof b CVector4;
      if b4 then Vector4.sub a b
      else throw (TypeError "Vector4 should subtract Vector4")
    else throw (TypeError "not supported").

Definition neg (a : value) : M value :=
  do a3 <- instanceof a CVector3;
  if a3 then Vector3.neg a
  else
    do a4 <- instanceof a CVector4;
    if a4 then Vector4.neg a
    else throw (TypeError "not supported").

Definition mul (a b : value) : M value :=
  do a3 <- instanceof a CVector3;
  if a3 then
    match b with
    | VNumber n => Vector3.mul a n
    | _ => throw (TypeError "Vector3 should multiply number")
    end
  else
    do a4 <- instanceof a CVector4;
    if a4 then
      do bm <- instanceof b CMatrix4;
      if bm then Matrix4.mul b a
      else
        match b with
        | VNumber n => Vector4.mul a n
        | _ => throw (TypeError "Vector4 should multiply Matrix4 or number")
        end
    else
      do am <- instanceof a CMatrix4;
      if am then
        do b4 <- instanceof b CVector4;
        if b4 then Matrix4.mul a b
        else
          do bm <- instanceof b CMatrix4;
          if bm then Matrix4.mul a b
          else
            match b with
            | VNumber _ => Matrix4.mul a b
            | _ => throw (TypeError "Matrix4 should multiply Vector4, Matrix4 or number")
            end
      else
        match a with
        | VNumber n =>
            do b3 <- instanceof b CVector3;
            if b3 then Vector3.mul b n
            else
              do b4 <- instanceof b CVector4;
              if b4 then Vector4.mul b n
              else
                do bm <- instanceof b CMatrix4;
                if bm then Matrix4.mul b a
                else throw (TypeError "number should multiply Vector3, Vector4 or Matrix4")
        | _ =>
            do aq <- instanceof a CQuaternion;
            if aq then
              do bq <- instanceof b CQuaternion;
              if bq then Quaternion.mul a b
              else throw (TypeError "Quaternion should multiply Quaternion")
            else throw (TypeError "not supported")
        end.

Definition div (a b : value) : M value :=
  do a3 <- instanceof a CVector3;
  if a3 then
    match b with
    | VNumber n => Vector3.div a n
    | _ => throw (TypeError "Vector3 should divide number")
    end
  else
    do a4 <- instanceof a CVector4;
    if a4 then
      match b with
      | VNumber n => Vector4.div a n
      | _ => throw (TypeError "Vector4 should divide number")
      end
    else throw (TypeError "not supported").

(** ** Reading the store: which instance holds which components *)

Definition is_instance (h : heap) (v : value) (c : class) : Prop :=
  exists l d, v = VRef l /\ h !! l = Some (Instance c d).

Definition is_Vector3 (h : heap) (v : value) (a : vec3) : Prop :=
  exists l d, v = VRef l /\ h !! l = Some (Instance CVector3 (VRef d))
              /\ h !! d = Some (Userdata (HVector3 a)).

Definition is_Vector4 (h : heap) (v : value) (a : vec4) : Prop :=
  exists l d, v = VRef l /\ h !! l = Some (Instance CVector4 (VRef d))
              /\ h !! d = Some (Userdata (HVector4 a)).

Definition is_Quaternion (h : heap) (v : value) (a : vec4) : Prop :=
  exists l d, v = VRef l /\ h !! l = Some (Instance CQuaternion (VRef d))
              /\ h !! d = Some (Userdata (HQuat a)).

Definition is_Matrix4 (h : heap) (v : value) (a : mat4) : Prop :=
  exists l d, v = VRef l /\ h !! l = Some (Instance CMatrix4 (VRef d))
              /\ h !! d = Some (Userdata (HMatrix4 a)).

(** The store after [new C(...)] has appended an instance over [u]. *)
Definition appended (h : heap) (c : class) (u : cell) : heap :=
  h ++ [Instance c (VRef (S (length h))); Userdata u].

(** ** The mathematics the specification names *)

(** The Hamilton product, component by component as the specification
    gives it. *)
Definition hamilton (q1 q2 : vec4) : vec4 :=
  let '(Vec4 x1 y1 z1 w1) := q1 in
  let '(Vec4 x2 y2 z2 w2) := q2 in
  Vec4 (w1 * x2 + x1 * w2 + y1 * z2 - z1 * y2)
       (w1 * y2 + y1 * w2 + z1 * x2 - x1 * z2)
       (w1 * z2 + z1 * w2 + x1 * y2 - y1 * x2)
       (w1 * w2 - x1 * x2 - y1 * y2 - z1 * z2).

(** Row [r] of a matrix kept by columns. *)
Definition row (m : mat4) (r : idx) : vec4 :=
  Vec4 (nth4 (col0 m) r) (nth4 (col1 m) r) (nth4 (col2 m) r) (nth4 (col3 m) r).

(** The dot product of two 4-vectors, summed from the first component
    to the last. *)
Definition dot4 (a b : vec4) : float :=
  v4x a * v4x b + v4y a * v4y b + v4z a * v4z b + v4w a * v4w b.

(** The matrix-vector product: component [i] is row [i] dotted with the
    vector. *)
Definition mat_vec (m : mat4) (v : vec4) : vec4 :=
  Vec4 (dot4 (row m I0) v) (dot4 (row m I1) v)
       (dot4 (row m I2) v) (dot4 (row m I3) v).

(** What [Matrix4.mul(m, v)] makes of the sixteen scalars [f a b] it
    reads as [m<a><b>] and of the components of [v]: component [j] is
    [m0j * x + m1j * y + m2j * z + m3j * w]. *)
Definition combine (f : idx -> idx -> float) (v : vec4) : vec4 :=
  let c j := f I0 j * v4x v + f I1 j * v4y v + f I2 j * v4z v + f I3 j * v4w v in
  Vec4 (c I0) (c I1) (c I2) (c I3).

(** The same on each column of a matrix. *)
Definition combine_columns (f : idx -> idx -> float) (m : mat4) : mat4 :=
  Mat4 (combine f (col0 m)) (combine f (col1 m))
       (combine f (col2 m)) (combine f (col3 m)).

(** The scalars [m<a>0], [m<a>1], [m<a>2], [m<a>3] of a matrix, in
    this order. *)
Definition fields (m : mat4) (a : idx) : vec4 :=
  Vec4 (field m a I0) (field m a I1) (field m a I2) (field m a I3).

(** [h'] keeps every object of [h] where it was and may hold more. *)
Definition extends (h h' : heap) : Prop := exists k, h' = h ++ k.

(** [v] refers to an object that [h] does not hold. *)
Definition fresh (h : heap) (v : value) : Prop :=
  exists l, v = VRef l /\ h !! l = None.

(** ** The operators as one family, and their operand types *)

Inductive operator := OpAdd | OpSub | OpNeg | OpMul | OpDiv.

(** A call [op(a, b)] of a dispatched operator; [neg] takes [a] only. *)
Definition dispatch (op : operator) (a b : value) : M value :=
  match op with
  | OpAdd => add a b
  | OpSub => sub a b
  | OpNeg => neg a
  | OpMul => mul a b
  | OpDiv => div a b
  end.

(** The name an operator is exported under. *)
Definition operator_name (op : operator) : string :=
  match op with
  | OpAdd => "add"
  | OpSub => "sub"
  | OpNeg => "neg"
  | OpMul => "mul"
  | OpDiv => "div"
  end.

(** What the dispatch can tell about an operand: a number, an instance
    of one of the classes, or anything else. *)
Inductive kind := KNumber | KClass (c : class) | KOther.

Definition kind_of (h : heap) (v : value) : kind :=
  match v with
  | VNumber _ => KNumber
  | VRef l =>
      match h !! l with
      | Some (Instance c _) => KClass c
      | _ => KOther
      end
  | _ => KOther
  end.

Definition kind_name (k : kind) : string :=
  match k with
  | KNumber => "number"
  | KClass c => class_name c
  | KOther => "object"
  end.

(** The operand-type combinations with a defined operation: the
    overloads the module declares for each operator. *)
Definition defined_operation (op : operator) (ka kb : kind) : bool :=
  match op, ka, kb with
  | OpAdd, KClass CVector3, KClass CVector3
  | OpAdd, KClass CVector4, KClass CVector4
  | OpSub, KClass CVector3, KClass CVector3
  | OpSub, KClass CVector4, KClass CVector4
  | OpNeg, KClass CVector3, _
  | OpNeg, KClass CVector4, _
  | OpMul, KClass CVector3, KNumber
  | OpMul, KNumber, KClass CVector3
  | OpMul, KClass CVector4, KNumber
  | OpMul, KNumber, KClass CVector4
  | OpMul, KClass CQuaternion, KClass CQuaternion
  | OpMul, KClass CMatrix4, KNumber
  | OpMul, KNumber, KClass CMatrix4
  | OpMul, KClass CMatrix4, KClass CMatrix4
  | OpMul, KClass CMatrix4, KClass CVector4
  | OpMul, KClass CVector4, KClass CMatrix4
  | OpDiv, KClass CVector3, KNumber
  | OpDiv, KClass CVector4, KNumber => true
  | _, _, _ => false
  end.

(** [contains p s]: the text [p] occurs in [s]. *)
Fixpoint contains (p s : string) : bool :=
  if String.prefix p s then true
  else match s with
       | EmptyString => false
       | String _ s' => contains p s'
       end.

(** A message names an operator when the operator's name occurs in it
    ("add", "subtract", "multiply" and "divide" all do). *)
Definition names_operator (op : operator) (message : string) : bool :=
  contains (operator_name op) message.

(** A message names a type when one of the type names occurs in it. *)
Definition names_kind (k : kind) (message : string) : bool :=
  contains (kind_name k) message.

Definition names_some_type (message : string) : bool :=
  existsb (fun n => contains n message)
    ["Vector3"; "Vector4"; "Quaternion"; "Matrix4"; "number"].

(** The first-operand types an operator has a branch for. *)
Definition dispatches_on (op : operator) (ka : kind) : bool :=
  match op, ka with
  | (OpAdd | OpSub | OpNeg | OpDiv), KClass (CVector3 | CVector4) => true
  | OpMul, (KClass _ | KNumber) => true
  | _, _ => false
  end.

(** The verb a message uses for an operator. *)
Definition verb (op : operator) : string :=
  match op with
  | OpAdd => "add"
  | OpSub => "subtract"
  | OpNeg => "negate"
  | OpMul => "multiply"
  | OpDiv => "divide"
  end.

(** The second-operand types a message lists as accepted after a first
    operand of kind [ka]. *)
Definition accepted (op : operator) (ka : kind) : string :=
  match op, ka with
  | OpMul, KClass CVector3 => "number"
  | OpMul, KClass CVector4 => "Matrix4 or number"
  | OpMul, KClass CMatrix4 => "Vector4, Matrix4 or number"
  | OpMul, KNumber => "Vector3, Vector4 or Matrix4"
  | OpDiv, _ => "number"
  | _, _ => kind_name ka
  end.

(** The message of a rejected call whose first operand has kind [ka]. *)
Definition mismatch_message (op : operator) (ka : kind) : string :=
  if dispatches_on op ka
  then kind_name ka ++ " should " ++ verb op ++ " " ++ accepted op ka
  else "not supported".

(** [new Vector3(v.data)]: a vector built from the backing data of [v]. *)
Definition from_data_of (v : value) : M value :=
  do d <- get_data v;
  Vector3.new d VUndefined VUndefined.

(** [Quaternion.mul(q, new Quaternion())] and
    [Quaternion.mul(new Quaternion(), q)] *)
Definition mul_identity_right (q : value) : M value :=
  do i <- Quaternion.new VUndefined VUndefined VUndefined VUndefined;
  Quaternion.mul q i.

Definition mul_identity_left (q : value) : M value :=
  do i <- Quaternion.new VUndefined VUndefined VUndefined VUndefined;
  Quaternion.mul i q.

(** [call] returns a new [Vector3] holding [result]: neither the instance
    nor its data existed in [h], so the instance is neither operand, and
    every object of [h] is still there, so the operands [v1] and [v2]
    hold what they held. *)
Definition returns_new_Vector3 (h : heap) (v1 v2 : value) (a b : vec3)
    (call : M value) (result : vec3) : Prop :=
  exists l d h',
    call h = (Return (VRef l), h') /\
    extends h h' /\
    h !! l = None /\ h !! d = None /\
    VRef l <> v1 /\ VRef l <> v2 /\
    h' !! l = Some (Instance CVector3 (VRef d)) /\
    h' !! d = Some (Userdata (HVector3 result)) /\
    is_Vector3 h' v1 a /\ is_Vector3 h' v2 b.

(** A store to run the operations on: two vectors, a 4-vector, two
    quaternions and two matrices. *)
Definition sample : heap :=
  [ Instance CVector3 (VRef 1%nat); Userdata (HVector3 (Vec3 1 2 3));
    Instance CVector3 (VRef 3%nat); Userdata (HVector3 (Vec3 4 5 6));
    Instance CVector4 (VRef 5%nat); Userdata (HVector4 (Vec4 1 2 3 4));
    Instance CQuaternion (VRef 7%nat); Userdata (HQuat (Vec4 1 2 3 4));
    Instance CQuaternion (VRef 9%nat); Userdata (HQuat (Vec4 5 6 7 8));
    Instance CMatrix4 (VRef 11%nat);
    Userdata (HMatrix4 (Mat4 (Vec4 1 2 3 4) (Vec4 5 6 7 8)
                             (Vec4 9 10 11 12) (Vec4 13 14 15 16)));
    Instance CMatrix4 (VRef 13%nat);
    Userdata (HMatrix4 (Mat4 (Vec4 2 0 0 0) (Vec4 0 2 0 0)
                             (Vec4 0 0 2 0) (Vec4 1 1 1 1))) ].

(** A quaternion with an infinite component. *)
Definition unbounded : heap :=
  [ Instance CQuaternion (VRef 1%nat); Userdata (HQuat (Vec4 infinity 0 0 1)) ].

(** ** Numbers up to the sign of zero *)

(** [a' === a] for finite numbers seen through their binary64
    specification: both are zeros, of either sign, or they are the same
    finite number. *)
Inductive close : spec_float -> spec_float -> Prop :=
| close_zero s' s : close (S754_zero s') (S754_zero s)
| close_finite s m e : close (S754_finite s m e) (S754_finite s m e).

(** A zero of either sign. *)
Definition zeroF (z : float) : Prop := exists s, Prim2SF z = S754_zero s.

Definition closeF (a' a : float) : Prop := close (Prim2SF a') (Prim2SF a).

(** [a'] and [a] are equal as numbers ([a' === a]), and are the same
    value unless [a] is a zero. *)
Definition same_number (a' a : float) : Prop :=
  (a' =? a) = true /\ ((a =? 0) = false -> a' = a).

Definition same_numbers (a' a : vec4) : Prop :=
  same_number (v4x a') (v4x a) /\ same_number (v4y a') (v4y a) /\
  same_number (v4z a') (v4z a) /\ same_number (v4w a') (v4w a).

(** All four components pass [Number.isFinite]. *)
Definition finite4 (a : vec4) : bool :=
  is_finite (v4x a) && is_finite (v4y a) && is_finite (v4z a) && is_finite (v4w a).

(** The mantissa [m] shifted left by 52 bits. *)
Definition shifted (m : positive) : positive := Eval cbv in Pos.iter xO m 52.

(** A quaternion whose [x] is the negative zero. *)
Definition signed_zero : heap :=
  [ Instance CQuaternion (VRef 1%nat); Userdata (HQuat (Vec4 (-0) 0 0 1)) ].

(** ** Vocabulary for the further properties *)

(** [call] returns a new instance of class [c] over a new backing value
    [u]: neither existed in [h], and every object of [h] is still where
    it was. *)
Definition returns_new (h : heap) (call : M value) (c : class) (u : cell) : Prop :=
  exists l d h',
    call h = (Return (VRef l), h') /\
    extends h h' /\
    h !! l = None /\ h !! d = None /\
    h' !! l = Some (Instance c (VRef d)) /\
    h' !! d = Some (Userdata u).

(** An operand the typed operations can work on: a number, or an
    instance of one of the classes over a backing value of its kind. *)
Definition well_formed (h : heap) (v : value) : Prop :=
  (exists n, v = VNumber n) \/
  (exists a, is_Vector3 h v a) \/ (exists a, is_Vector4 h v a) \/
  (exists a, is_Quaternion h v a) \/ (exists a, is_Matrix4 h v a).

(** Component-wise images of vectors and matrices. *)
Definition map3 (f : float -> float) (a : vec3) : vec3 :=
  Vec3 (f (v3x a)) (f (v3y a)) (f (v3z a)).

Definition map4 (f : float -> float) (a : vec4) : vec4 :=
  Vec4 (f (v4x a)) (f (v4y a)) (f (v4z a)) (f (v4w a)).

Definition zip3 (f : float -> float -> float) (a b : vec3) : vec3 :=
  Vec3 (f (v3x a) (v3x b)) (f (v3y a) (v3y b)) (f (v3z a) (v3z b)).

Definition zip4 (f : float -> float -> float) (a b : vec4) : vec4 :=
  Vec4 (f (v4x a) (v4x b)) (f (v4y a) (v4y b))
       (f (v4z a) (v4z b)) (f (v4w a) (v4w b)).

Definition map16 (f : float -> float) (m : mat4) : mat4 :=
  Mat4 (map4 f (col0 m)) (map4 f (col1 m)) (map4 f (col2 m)) (map4 f (col3 m)).

(** All components pass [Number.isFinite]. *)
Definition finite3 (a : vec3) : bool :=
  is_finite (v3x a) && is_finite (v3y a) && is_finite (v3z a).

Definition finite16 (m : mat4) : bool :=
  finite4 (col0 m) && finite4 (col1 m) && finite4 (col2 m) && finite4 (col3 m).

Definition same_numbers3 (a' a : vec3) : Prop :=
  same_number (v3x a') (v3x a) /\ same_number (v3y a') (v3y a) /\
  same_number (v3z a') (v3z a).

Definition same_numbers16 (m' m : mat4) : Prop :=
  same_numbers (col0 m') (col0 m) /\ same_numbers (col1 m') (col1 m) /\
  same_numbers (col2 m') (col2 m) /\ same_numbers (col3 m') (col3 m).

(** What a component becomes when divided by zero through [x * (1 / 0)]:
    [NaN] for a zero, an infinity otherwise. *)
Definition blown_up (x' x : float) : Prop :=
  ((x =? 0) = true -> x' = nan) /\
  ((x =? 0) = false -> x' = infinity \/ x' = neg_infinity).

(** [new Vector3(v)], [new Matrix4()] and the chains of calls the
    properties below are about. *)
Definition copy_then_set_x (v : value) (n : float) : M float :=
  do v' <- Vector3.new v VUndefined VUndefined;
  run Vector3.set_x v' n;
  Vector3.get_x v.

Definition set_then_read (set : value -> float -> M unit)
    (v : value) (n : float) : M vec3 :=
  run set v n;
  do x <- Vector3.get_x v;
  do y <- Vector3.get_y v;
  do z <- Vector3.get_z v;
  ret (Vec3 x y z).

Definition columns_then_read (c0 c1 c2 c3 : value) (i : idx) : M value :=
  do m <- Matrix4.new c0 c1 c2 c3;
  Matrix4.get_c i m.

Definition neg_neg (v : value) : M value :=
  do w <- neg v;
  neg w.

Definition add_neg (v1 v2 : value) : M value :=
  do w <- neg v2;
  add v1 w.

(** A second store to run the operations on: two 3-vectors (the second
    with a zero component), two 4-vectors, the identity matrix and
    another matrix. *)
Definition bench : heap :=
  [ Instance CVector3 (VRef 1%nat); Userdata (HVector3 (Vec3 1 2 3));
    Instance CVector3 (VRef 3%nat); Userdata (HVector3 (Vec3 0 (-2) 5));
    Instance CVector4 (VRef 5%nat); Userdata (HVector4 (Vec4 1 2 3 4));
    Instance CVector4 (VRef 7%nat); Userdata (HVector4 (Vec4 8 7 6 5));
    Instance CMatrix4 (VRef 9%nat); Userdata (HMatrix4 identity4);
    Instance CMatrix4 (VRef 11%nat);
    Userdata (HMatrix4 (Mat4 (Vec4 1 2 3 4) (Vec4 5 6 7 8)
                             (Vec4 9 10 11 12) (Vec4 13 14 15 16))) ].

(** ** Stepping through computations *)

Lemma bind_Return {A B} (m : M A) (k : A -> M B) h a h' :
  m h = (Return a, h') -> bind m k h = k a h'.
Proof. intros E. unfold bind. now rewrite E. Qed.

Lemma bind_Throw {A B} (m : M A) (k : A -> M B) h e h' :
  m h = (Throw e, h') -> bind m k h = (Throw e, h').
Proof. intros E. unfold bind. now rewrite E. Qed.

Lemma bind_assoc {A B C} (m : M A) (k1 : A -> M B) (k2 : B -> M C) h :
  bind (bind m k1) k2 h = bind m (fun a => bind (k1 a) k2) h.
Proof. unfold bind. now destruct (m h) as [[a|e] h']. Qed.

(** Take the first step of a computation, given what it evaluates to. *)
Ltac step E := rewrite ?bind_assoc; rewrite (bind_Return _ _ _ _ _ E); cbv beta.

(** The same, the first step being justified by a tactic. *)
Ltac step_by tac := rewrite ?bind_assoc; erewrite bind_Return by tac; cbv beta.

Lemma lookup_grow (h k : heap) l o :
  h !! l = Some o -> (h ++ k) !! l = Some o.
Proof. intros E. now apply lookup_app_l_Some. Qed.

Lemma lookup_fresh (h : heap) : h !! length h = None.
Proof. apply lookup_ge_None. lia. Qed.

Lemma lookup_alloc_1 (h k : heap) o : (h ++ o :: k) !! length h = Some o.
Proof. apply list_lookup_middle. reflexivity. Qed.

Lemma lookup_alloc_2 (h k : heap) o1 o2 :
  (h ++ o1 :: o2 :: k) !! S (length h) = Some o2.
Proof.
  replace (h ++ o1 :: o2 :: k) with ((h ++ [o1]) ++ o2 :: k)
    by now rewrite <- app_assoc.
  apply list_lookup_middle. rewrite length_app. simpl. lia.
Qed.

Lemma insert_alloc_1 (h k : heap) o o' :
  <[length h := o']> (h ++ o :: k) = h ++ o' :: k.
Proof.
  rewrite insert_app_r_alt by lia.
  now rewrite Nat.sub_diag.
Qed.

Lemma load_ref h l o : h !! l = Some o -> load (VRef l) h = (Return o, h).
Proof. intros E. unfold load. now rewrite E. Qed.

Lemma store_ref h l o o' :
  h !! l = Some o -> store (VRef l) o' h = (Return tt, <[l := o']> h).
Proof. intros E. unfold store. now rewrite E. Qed.

Lemma get_data_ref h l c d :
  h !! l = Some (Instance c d) -> get_data (VRef l) h = (Return d, h).
Proof.
  intros E. unfold get_data.
  now rewrite (bind_Return _ _ _ _ _ (load_ref _ _ _ E)).
Qed.

Lemma set_data_ref h l c d d' :
  h !! l = Some (Instance c d) ->
  set_data (VRef l) d' h = (Return tt, <[l := Instance c d']> h).
Proof.
  intros E. unfold set_data.
  rewrite (bind_Return _ _ _ _ _ (load_ref _ _ _ E)).
  now apply store_ref with (o := Instance c d).
Qed.

Lemma instanceof_ref h l c d c' :
  h !! l = Some (Instance c d) ->
  instanceof (VRef l) c' h = (Return (class_eqb c c'), h).
Proof. intros E. unfold instanceof. now rewrite E. Qed.

Lemma instanceof_userdata h l u c :
  h !! l = Some (Userdata u) -> instanceof (VRef l) c h = (Return false, h).
Proof. intros E. unfold instanceof. now rewrite E. Qed.

(** A getter [this.data.k] reads the backing value and leaves the store
    alone. *)
Lemma read_field h l c d u k n :
  h !! l = Some (Instance c (VRef d)) ->
  h !! d = Some (Userdata u) ->
  cell_get u k = Some n ->
  bind (get_data (VRef l)) (fun d => lua.index d k) h = (Return n, h).
Proof.
  intros El Ed Ek.
  rewrite (bind_Return _ _ _ _ _ (get_data_ref _ _ _ _ El)).
  unfold lua.index.
  rewrite (bind_Return _ _ _ _ _ (load_ref _ _ _ Ed)).
  now rewrite Ek.
Qed.

(** A setter [this.data.k = n] replaces the backing value where it
    stands. *)
Lemma write_field h l c d u k n u' :
  h !! l = Some (Instance c (VRef d)) ->
  h !! d = Some (Userdata u) ->
  cell_set u k n = Some u' ->
  bind (get_data (VRef l)) (fun d => lua.newindex d k n) h
  = (Return tt, <[d := Userdata u']> h).
Proof.
  intros El Ed Ek.
  rewrite (bind_Return _ _ _ _ _ (get_data_ref _ _ _ _ El)).
  unfold lua.newindex.
  rewrite (bind_Return _ _ _ _ _ (load_ref _ _ _ Ed)).
  rewrite Ek. now apply store_ref with (o := Userdata u).
Qed.

(** [new C(...)] when the constructor asks the host for a backing value
    [u]: the instance and then its data are appended to the store. *)
Lemma new_instance_fresh c (k : value -> M unit) u h :
  (forall this h0, k this h0
     = bind (alloc (Userdata u)) (fun d => set_data this d) h0) ->
  new_instance c k h
  = (Return (VRef (length h)),
     h ++ [Instance c (VRef (S (length h))); Userdata u]).
Proof.
  intros Ek. unfold new_instance.
  unfold bind at 1. unfold alloc at 1.
  unfold bind at 1. rewrite Ek.
  unfold bind at 1. unfold alloc at 1.
  rewrite <- app_assoc. simpl.
  erewrite set_data_ref by apply lookup_alloc_1.
  rewrite insert_alloc_1, length_app. simpl.
  now rewrite Nat.add_1_r.
Qed.

Lemma Vector3_new_numbers x y z h :
  Vector3.new (VNumber x) (VNumber y) (VNumber z) h
  = (Return (VRef (length h)), appended h CVector3 (HVector3 (Vec3 x y z))).
Proof. apply new_instance_fresh. reflexivity. Qed.

Lemma Vector4_new_numbers x y z w h :
  Vector4.new (VNumber x) (VNumber y) (VNumber z) (VNumber w) h
  = (Return (VRef (length h)), appended h CVector4 (HVector4 (Vec4 x y z w))).
Proof. apply new_instance_fresh. reflexivity. Qed.

Lemma Quaternion_new_numbers x y z w h :
  Quaternion.new (VNumber x) (VNumber y) (VNumber z) (VNumber w) h
  = (Return (VRef (length h)), appended h CQuaternion (HQuat (Vec4 x y z w))).
Proof. apply new_instance_fresh. reflexivity. Qed.

Lemma Quaternion_new_identity h :
  Quaternion.new VUndefined VUndefined VUndefined VUndefined h
  = (Return (VRef (length h)), appended h CQuaternion (HQuat (Vec4 0 0 0 1))).
Proof. apply new_instance_fresh. reflexivity. Qed.

Lemma appended_lookup h c u l o :
  h !! l = Some o -> appended h c u !! l = Some o.
Proof. apply lookup_grow. Qed.

Lemma appended_instance h c u :
  appended h c u !! length h = Some (Instance c (VRef (S (length h)))).
Proof. apply lookup_alloc_1. Qed.

Lemma appended_data h c u :
  appended h c u !! S (length h) = Some (Userdata u).
Proof. apply lookup_alloc_2. Qed.

Lemma appended_Vector3 h a :
  is_Vector3 (appended h CVector3 (HVector3 a)) (VRef (length h)) a.
Proof.
  exists (length h), (S (length h)).
  split; [reflexivity | split; [apply appended_instance | apply appended_data]].
Qed.

Lemma appended_Vector4 h a :
  is_Vector4 (appended h CVector4 (HVector4 a)) (VRef (length h)) a.
Proof.
  exists (length h), (S (length h)).
  split; [reflexivity | split; [apply appended_instance | apply appended_data]].
Qed.

Lemma appended_Quaternion h a :
  is_Quaternion (appended h CQuaternion (HQuat a)) (VRef (length h)) a.
Proof.
  exists (length h), (S (length h)).
  split; [reflexivity | split; [apply appended_instance | apply appended_data]].
Qed.

Lemma appended_Matrix4 h a :
  is_Matrix4 (appended h CMatrix4 (HMatrix4 a)) (VRef (length h)) a.
Proof.
  exists (length h), (S (length h)).
  split; [reflexivity | split; [apply appended_instance | apply appended_data]].
Qed.

(** Instances survive every growth of the store. *)
Lemma is_Vector3_grow h k v a : is_Vector3 h v a -> is_Vector3 (h ++ k) v a.
Proof.
  intros (l & d & -> & El & Ed). exists l, d.
  split; [reflexivity | split; now apply lookup_grow].
Qed.

Lemma is_Vector4_grow h k v a : is_Vector4 h v a -> is_Vector4 (h ++ k) v a.
Proof.
  intros (l & d & -> & El & Ed). exists l, d.
  split; [reflexivity | split; now apply lookup_grow].
Qed.

Lemma is_Quaternion_grow h k v a :
  is_Quaternion h v a -> is_Quaternion (h ++ k) v a.
Proof.
  intros (l & d & -> & El & Ed). exists l, d.
  split; [reflexivity | split; now apply lookup_grow].
Qed.

Lemma is_Matrix4_grow h k v a : is_Matrix4 h v a -> is_Matrix4 (h ++ k) v a.
Proof.
  intros (l & d & -> & El & Ed). exists l, d.
  split; [reflexivity | split; now apply lookup_grow].
Qed.

(** Run the getters at the head of a computation. *)
Ltac read_getters :=
  repeat (erewrite bind_Return
            by (eapply read_field; [eassumption | eassumption | reflexivity])).

(** ** Quaternion composition *)

Lemma Quaternion_mul_run h q1 q2 a b :
  is_Quaternion h q1 a -> is_Quaternion h q2 b ->
  Quaternion.mul q1 q2 h
  = (Return (VRef (length h)), appended h CQuaternion (HQuat (hamilton a b))).
Proof.
  intros (l1 & d1 & -> & El1 & Ed1) (l2 & d2 & -> & El2 & Ed2).
  unfold Quaternion.mul,
    Quaternion.get_x, Quaternion.get_y, Quaternion.get_z, Quaternion.get_w.
  read_getters.
  rewrite Quaternion_new_numbers.
  now destruct a, b.
Qed.

Lemma extends_refl h : extends h h.
Proof. exists []. now rewrite app_nil_r. Qed.

Lemma extends_trans h1 h2 h3 : extends h1 h2 -> extends h2 h3 -> extends h1 h3.
Proof. intros [k1 ->] [k2 ->]. exists (k1 ++ k2). now rewrite app_assoc. Qed.

Lemma extends_appended h c u : extends h (appended h c u).
Proof. now eexists. Qed.

Lemma extends_lookup h h' l o : extends h h' -> h !! l = Some o -> h' !! l = Some o.
Proof. intros [k ->]. apply lookup_grow. Qed.

Lemma is_Vector3_extends h h' v a : extends h h' -> is_Vector3 h v a -> is_Vector3 h' v a.
Proof. intros [k ->]. apply is_Vector3_grow. Qed.

Lemma is_Vector4_extends h h' v a : extends h h' -> is_Vector4 h v a -> is_Vector4 h' v a.
Proof. intros [k ->]. apply is_Vector4_grow. Qed.

Lemma is_Quaternion_extends h h' v a :
  extends h h' -> is_Quaternion h v a -> is_Quaternion h' v a.
Proof. intros [k ->]. apply is_Quaternion_grow. Qed.

Lemma is_Matrix4_extends h h' v a : extends h h' -> is_Matrix4 h v a -> is_Matrix4 h' v a.
Proof. intros [k ->]. apply is_Matrix4_grow. Qed.

(** ** Matrix products *)

(** The scalar getter [m<a><b>] reads the field of that name. *)
Lemma Matrix4_get_m h m A a b :
  is_Matrix4 h m A -> Matrix4.get_m a b m h = (Return (field A a b), h).
Proof.
  intros (l & d & -> & El & Ed).
  now apply read_field with (c := CMatrix4) (d := d) (u := HMatrix4 A).
Qed.

(** The [Vector4] branch, over whatever the sixteen scalar getters of
    the left operand return. *)
Lemma Matrix4_mul_body_reads self h m v f a :
  (forall i j, Matrix4.get_m i j m h = (Return (f i j), h)) ->
  is_Vector4 h v a ->
  Matrix4.mul_body self m v h
  = (Return (VRef (length h)), appended h CVector4 (HVector4 (combine f a))).
Proof.
  intros Hm (l2 & d2 & -> & El2 & Ed2).
  unfold Matrix4.mul_body.
  step (instanceof_ref _ _ _ _ CMatrix4 El2).
  cbv beta iota delta [class_eqb].
  step (instanceof_ref _ _ _ _ CVector4 El2).
  cbv beta iota delta [class_eqb].
  do 16 step_by ltac:(apply Hm).
  unfold Vector4.get_x, Vector4.get_y, Vector4.get_z, Vector4.get_w.
  read_getters.
  now rewrite Vector4_new_numbers.
Qed.

Lemma Matrix4_mul_body_Vector4 self h m v A a :
  is_Matrix4 h m A -> is_Vector4 h v a ->
  Matrix4.mul_body self m v h
  = (Return (VRef (length h)),
     appended h CVector4 (HVector4 (combine (field A) a))).
Proof.
  intros Hm. apply Matrix4_mul_body_reads.
  intros i j. now apply Matrix4_get_m.
Qed.

Lemma Matrix4_mul_Vector4 h m v A a :
  is_Matrix4 h m A -> is_Vector4 h v a ->
  Matrix4.mul m v h
  = (Return (VRef (length h)),
     appended h CVector4 (HVector4 (combine (field A) a))).
Proof. apply Matrix4_mul_body_Vector4. Qed.

(** [new Vector4(d)] over an existing backing value takes it as its
    data: no copy is made. *)
Lemma Vector4_new_data h d u :
  h !! d = Some (Userdata u) ->
  Vector4.new (VRef d) VUndefined VUndefined VUndefined h
  = (Return (VRef (length h)), h ++ [Instance CVector4 (VRef d)]).
Proof.
  intros Ed. unfold Vector4.new, new_instance.
  unfold bind at 1. unfold alloc at 1.
  unfold Vector4.constructor, undefined_number_or. cbn [typeof String.eqb].
  assert (Ed' : (h ++ [Instance CVector4 VUndefined]) !! d = Some (Userdata u))
    by now apply lookup_grow.
  unfold bind at 1.
  step (instanceof_userdata _ _ _ CVector4 Ed').
  erewrite set_data_ref by apply lookup_alloc_1.
  now rewrite insert_alloc_1.
Qed.

Lemma Matrix4_get_c h m A i :
  is_Matrix4 h m A ->
  Matrix4.get_c i m h
  = (Return (VRef (S (length h))),
     h ++ [Userdata (HVector4 (column A i)); Instance CVector4 (VRef (length h))]).
Proof.
  intros (l & d & -> & El & Ed). unfold Matrix4.get_c.
  step (get_data_ref _ _ _ _ El).
  unfold lua.index_column.
  step (load_ref _ _ _ Ed).
  unfold bind at 1. unfold alloc at 1.
  erewrite Vector4_new_data by apply lookup_alloc_1.
  rewrite <- app_assoc, length_app. simpl.
  now rewrite Nat.add_1_r.
Qed.

Lemma Matrix4_get_c_Vector4 h A i :
  is_Vector4
    (h ++ [Userdata (HVector4 (column A i)); Instance CVector4 (VRef (length h))])
    (VRef (S (length h))) (column A i).
Proof.
  exists (S (length h)), (length h).
  split; [reflexivity | split; [apply lookup_alloc_2 | apply lookup_alloc_1]].
Qed.

Lemma components4_Vector4 h v a :
  is_Vector4 h v a -> lua.components4 v h = (Return a, h).
Proof.
  intros (l & d & -> & El & Ed). unfold lua.components4.
  step (load_ref _ _ _ El).
  now step (load_ref _ _ _ Ed).
Qed.

(** [m.c<i> = c] rewrites column [i] of the matrix's own backing value. *)
Lemma Matrix4_set_c h l d A i c a :
  h !! l = Some (Instance CMatrix4 (VRef d)) ->
  h !! d = Some (Userdata (HMatrix4 A)) ->
  is_Vector4 h c a ->
  Matrix4.set_c i (VRef l) c h
  = (Return tt, <[d := Userdata (HMatrix4 (set_column A i a))]> h).
Proof.
  intros El Ed Hc. unfold Matrix4.set_c.
  step (get_data_ref _ _ _ _ El).
  unfold lua.newindex_column.
  step (components4_Vector4 _ _ _ Hc).
  step (load_ref _ _ _ Ed).
  now apply store_ref with (o := Userdata (HMatrix4 A)).
Qed.

Lemma insert_alloc_2 (h : heap) o1 o2 o2' :
  <[S (length h) := o2']> (h ++ [o1; o2]) = h ++ [o1; o2'].
Proof.
  rewrite insert_app_r_alt by lia.
  now replace (S (length h) - length h)%nat with 1%nat by lia.
Qed.

Lemma Matrix4_set_c_appended h A i c a :
  is_Vector4 h c a ->
  Matrix4.set_c i (VRef (length h)) c (appended h CMatrix4 (HMatrix4 A))
  = (Return tt, appended h CMatrix4 (HMatrix4 (set_column A i a))).
Proof.
  intros Hc.
  erewrite Matrix4_set_c.
  - unfold appended. now rewrite insert_alloc_2.
  - apply appended_instance.
  - apply appended_data.
  - now apply is_Vector4_grow.
Qed.

(** [new Matrix4(c0, c1, c2, c3)] from four vectors. *)
Lemma Matrix4_new_columns h c0 c1 c2 c3 a0 a1 a2 a3 :
  is_Vector4 h c0 a0 -> is_Vector4 h c1 a1 ->
  is_Vector4 h c2 a2 -> is_Vector4 h c3 a3 ->
  Matrix4.new c0 c1 c2 c3 h
  = (Return (VRef (length h)),
     appended h CMatrix4 (HMatrix4 (Mat4 a0 a1 a2 a3))).
Proof.
  intros H0 H1 H2 H3.
  unfold Matrix4.new, new_instance.
  unfold bind at 1. unfold alloc at 1.
  unfold bind at 1. unfold Matrix4.constructor.
  destruct H0 as (l0 & d0 & -> & El0 & Ed0).
  assert (El0' : (h ++ [Instance CMatrix4 VUndefined]) !! l0
                 = Some (Instance CVector4 (VRef d0))) by now apply lookup_grow.
  step (instanceof_ref _ _ _ _ CMatrix4 El0').
  cbv beta iota delta [class_eqb].
  step (instanceof_ref _ _ _ _ CVector4 El0').
  cbv beta iota delta [class_eqb].
  unfold lua.vmath.matrix4.
  unfold bind at 1. unfold alloc at 1.
  rewrite <- app_assoc. simpl app.
  erewrite bind_Return
    by (erewrite set_data_ref by apply lookup_alloc_1;
        rewrite insert_alloc_1, length_app; simpl length;
        rewrite Nat.add_1_r; reflexivity).
  fold (appended h CMatrix4 (HMatrix4 identity4)).
  assert (H0 : is_Vector4 h (VRef l0) a0) by (exists l0, d0; auto).
  do 3 step_by ltac:(apply Matrix4_set_c_appended; eassumption).
  now erewrite Matrix4_set_c_appended by eassumption.
Qed.

(** One column of the product: [Matrix4.mul(m1, m2.c<i>)]. *)
Lemma Matrix4_mul_column self h m1 m2 A B i :
  is_Matrix4 h m1 A -> is_Matrix4 h m2 B ->
  exists r h',
    extends h h' /\ is_Vector4 h' r (combine (field A) (column B i)) /\
    forall T (k : value -> M T),
      bind (Matrix4.get_c i m2)
        (fun a => bind (Matrix4.mul_body self m1 a) k) h = k r h'.
Proof.
  intros H1 H2.
  set (h1 := h ++ [Userdata (HVector4 (column B i));
                   Instance CVector4 (VRef (length h))]).
  exists (VRef (length h1)),
    (appended h1 CVector4 (HVector4 (combine (field A) (column B i)))).
  split; [| split].
  - eapply extends_trans; [| apply extends_appended]. now eexists.
  - apply appended_Vector4.
  - intros T k.
    step (Matrix4_get_c h m2 B i H2). fold h1.
    assert (H1' : is_Matrix4 h1 m1 A) by now apply is_Matrix4_grow.
    now step (Matrix4_mul_body_Vector4 self h1 m1 _ A _ H1'
                (Matrix4_get_c_Vector4 h B i)).
Qed.

Lemma extends_fresh h h' : extends h h' -> fresh h (VRef (length h')).
Proof.
  intros [k ->]. exists (length (h ++ k)). split; [reflexivity |].
  apply lookup_ge_None. rewrite length_app. lia.
Qed.

Lemma Matrix4_mul_Matrix4 h m1 m2 A B :
  is_Matrix4 h m1 A -> is_Matrix4 h m2 B ->
  exists r h',
    Matrix4.mul m1 m2 h = (Return r, h') /\
    extends h h' /\ fresh h r /\
    is_Matrix4 h' r (combine_columns (field A) B).
Proof.
  intros H1 H2.
  set (stop := fun _ _ : value => throw Fault : M value).
  destruct (Matrix4_mul_column stop h m1 m2 A B I0 H1 H2)
    as (r0 & h0 & X0 & V0 & E0).
  destruct (Matrix4_mul_column stop h0 m1 m2 A B I1)
    as (r1 & h1 & X1 & V1 & E1); eauto using is_Matrix4_extends.
  assert (Y1 : extends h h1) by eauto using extends_trans.
  destruct (Matrix4_mul_column stop h1 m1 m2 A B I2)
    as (r2 & h2 & X2 & V2 & E2); eauto using is_Matrix4_extends.
  assert (Y2 : extends h h2) by eauto using extends_trans.
  destruct (Matrix4_mul_column stop h2 m1 m2 A B I3)
    as (r3 & h3 & X3 & V3 & E3); eauto using is_Matrix4_extends.
  assert (Y3 : extends h h3) by eauto using extends_trans.
  exists (VRef (length h3)),
    (appended h3 CMatrix4 (HMatrix4 (combine_columns (field A) B))).
  split; [| split; [| split]].
  - unfold Matrix4.mul. unfold Matrix4.mul_body at 1. fold stop.
    destruct H2 as (l2 & d2 & -> & El2 & Ed2).
    step (instanceof_ref _ _ _ _ CMatrix4 El2).
    cbv beta iota delta [class_eqb].
    rewrite E0, E1, E2, E3.
    apply Matrix4_new_columns;
      eauto using is_Vector4_extends, extends_trans.
  - eauto using extends_trans, extends_appended.
  - now apply extends_fresh.
  - apply appended_Matrix4.
Qed.

(** *** The nested calls of [Matrix4.mul] *)

Lemma bind_ext {A B} (m m' : M A) (k k' : A -> M B) h :
  m h = m' h ->
  (forall a h', m h = (Return a, h') -> k a h' = k' a h') ->
  bind m k h = bind m' k' h.
Proof.
  intros Em Ek. unfold bind. rewrite <- Em.
  destruct (m h) as [[a|e] h']; [now apply Ek | reflexivity].
Qed.

(** Whenever a column getter returns, it returns a new [Vector4]. *)
Lemma Matrix4_get_c_returns i xn h a h' :
  Matrix4.get_c i xn h = (Return a, h') ->
  exists l d, a = VRef l /\ h' !! l = Some (Instance CVector4 d).
Proof.
  unfold Matrix4.get_c, get_data, lua.index_column.
  rewrite !bind_assoc. unfold bind at 1.
  destruct (load xn h) as [[o|e] h1] eqn:E1; [| discriminate].
  assert (h1 = h) as ->.
  { unfold load in E1. destruct xn; try discriminate.
    destruct (h !! l); now inversion E1. }
  destruct o as [c d| |]; try discriminate.
  unfold bind at 1, ret at 1. rewrite bind_assoc.
  unfold bind at 1.
  destruct (load d h) as [[o|e] h1] eqn:E2; [| discriminate].
  assert (h1 = h) as ->.
  { unfold load in E2. destruct d; try discriminate.
    destruct (h !! l); now inversion E2. }
  destruct o as [| [| | |m] |]; try discriminate.
  unfold bind at 1. unfold alloc at 1.
  erewrite Vector4_new_data by apply lookup_alloc_1.
  intros [= <- <-].
  exists (length (h ++ [Userdata (HVector4 (column m i))])), (VRef (length h)).
  split; [reflexivity |]. apply lookup_alloc_1.
Qed.

(** On a [Vector4] the body of [Matrix4.mul] makes no nested call. *)
Lemma Matrix4_mul_body_leaf f g m1 l d h :
  h !! l = Some (Instance CVector4 d) ->
  Matrix4.mul_body f m1 (VRef l) h = Matrix4.mul_body g m1 (VRef l) h.
Proof.
  intros El. unfold Matrix4.mul_body.
  step (instanceof_ref _ _ _ _ CMatrix4 El).
  step (instanceof_ref _ _ _ _ CMatrix4 El).
  reflexivity.
Qed.

(** [Matrix4.mul] is the function its body describes: unrolling the
    recursion once more changes nothing. *)
Lemma Matrix4_mul_unfold m1 xn h :
  Matrix4.mul m1 xn h = Matrix4.mul_body Matrix4.mul m1 xn h.
Proof.
  unfold Matrix4.mul.
  set (stop := fun _ _ : value => throw Fault : M value).
  unfold Matrix4.mul_body at 1 3.
  apply bind_ext; [reflexivity |].
  intros [|] h0 _; [| reflexivity].
  do 4 (apply bind_ext; [reflexivity |]; intros ? ? E;
        apply Matrix4_get_c_returns in E as (? & ? & -> & ?);
        apply bind_ext; [eapply Matrix4_mul_body_leaf; eassumption |];
        intros ? ? _).
  reflexivity.
Qed.

(** ** Dispatch *)

Lemma instanceof_kind v c h :
  instanceof v c h
  = (Return match kind_of h v with
            | KClass c' => class_eqb c' c
            | _ => false
            end, h).
Proof.
  destruct v; try reflexivity. simpl.
  now destruct (h !! l) as [[]|].
Qed.

Lemma kind_of_instance h v c : is_instance h v c -> kind_of h v = KClass c.
Proof. intros (l & d & -> & El). simpl. now rewrite El. Qed.

Lemma dispatch_mismatch op h a b :
  defined_operation op (kind_of h a) (kind_of h b) = false ->
  dispatch op a b h
  = (Throw (TypeError (mismatch_message op (kind_of h a))), h).
Proof.
  intros Hdef.
  destruct op, a as [| | | ? | | la], b as [| | | ? | | lb];
    cbn [kind_of] in Hdef |- *;
    try (destruct (h !! la) as [[[] ?| |]|] eqn:Ea);
    try (destruct (h !! lb) as [[[] ?| |]|] eqn:Eb);
    try discriminate Hdef;
    cbv [dispatch add sub neg mul div];
    repeat (cbv beta iota delta [bind instanceof class_eqb throw];
            rewrite ?Ea, ?Eb);
    reflexivity.
Qed.

Lemma mismatch_message_names op ka :
  dispatches_on op ka = true ->
  names_operator op (mismatch_message op ka) = true /\
  names_kind ka (mismatch_message op ka) = true.
Proof.
  destruct op, ka as [|[]|]; try discriminate; intros _;
    split; vm_compute; reflexivity.
Qed.

(** C4: [add] on a [Vector3] and a [Vector4] throws the TypeError
    "Vector3 should add Vector3"; it returns nothing and leaves the
    store, and so both operands, as they were. *)
Theorem add_Vector3_Vector4_throws h a b :
  is_instance h a CVector3 -> is_instance h b CVector4 ->
  add a b h = (Throw (TypeError "Vector3 should add Vector3"), h).
Proof.
  intros Ha Hb.
  pose proof (kind_of_instance _ _ _ Ha) as Ka.
  pose proof (kind_of_instance _ _ _ Hb) as Kb.
  change (add a b h) with (dispatch OpAdd a b h).
  rewrite dispatch_mismatch by now rewrite Ka, Kb.
  now rewrite Ka.
Qed.

Lemma add_Vector3_Vector4_throws_sample :
  add (VRef 0%nat) (VRef 4%nat) sample
  = (Throw (TypeError "Vector3 should add Vector3"), sample).
Proof.
  apply (add_Vector3_Vector4_throws sample (VRef 0%nat) (VRef 4%nat)).
  - exists 0%nat, (VRef 1%nat). split; reflexivity.
  - exists 4%nat, (VRef 5%nat). split; reflexivity.
Defined.

(** C5, as amended: a call of [add], [sub], [neg], [mul] or [div] on an
    operand-type combination with no defined operation throws a
    TypeError and leaves the store as it was.  When the operator has a
    branch for the type of the first operand, the message is that type's
    name, "should", the operator's verb and the accepted second operand
    types, so it names the operator and the first operand's type;
    otherwise the message is "not supported". *)
Theorem dispatch_rejects op h a b :
  defined_operation op (kind_of h a) (kind_of h b) = false ->
  exists message,
    dispatch op a b h = (Throw (TypeError message), h) /\
    if dispatches_on op (kind_of h a)
    then message = (kind_name (kind_of h a) ++ " should " ++ verb op
                    ++ " " ++ accepted op (kind_of h a))%string
         /\ names_operator op message = true
         /\ names_kind (kind_of h a) message = true
    else message = "not supported".
Proof.
  intros Hdef. exists (mismatch_message op (kind_of h a)).
  split; [now apply dispatch_mismatch |].
  pose proof (mismatch_message_names op (kind_of h a)) as Hn.
  unfold mismatch_message in *.
  destruct (dispatches_on op (kind_of h a)); [| reflexivity].
  destruct Hn as [Ho Hk]; auto.
Qed.

Lemma dispatch_rejects_sample :
  exists message,
    dispatch OpMul (VRef 0%nat) (VRef 10%nat) sample
    = (Throw (TypeError message), sample) /\
    message = "Vector3 should multiply number"
    /\ names_operator OpMul message = true
    /\ names_kind (KClass CVector3) message = true.
Proof.
  apply (dispatch_rejects OpMul sample (VRef 0%nat) (VRef 10%nat)).
  reflexivity.
Defined.

(** C5 as stated fails: [neg] of a quaternion, and [add] of a number and
    a vector, are rejected with the message "not supported", which names
    neither the operator nor any type. *)
Lemma neg_Quaternion_names_nothing :
  defined_operation OpNeg (kind_of sample (VRef 6%nat))
    (kind_of sample VUndefined) = false /\
  dispatch OpNeg (VRef 6%nat) VUndefined sample
  = (Throw (TypeError "not supported"), sample) /\
  names_operator OpNeg "not supported" = false /\
  defined_operation OpAdd (kind_of sample (VNumber 1))
    (kind_of sample (VRef 0%nat)) = false /\
  dispatch OpAdd (VNumber 1) (VRef 0%nat) sample
  = (Throw (TypeError "not supported"), sample) /\
  names_operator OpAdd "not supported" = false /\
  names_some_type "not supported" = false.
Proof. repeat split; reflexivity. Qed.

(** C10: with a quaternion operand the dispatched operators accept only
    quaternion times quaternion: [mul(q, n)] and [mul(n, q)] for a
    number [n], [div(q, b)], [add(q, b)] and [sub(q, b)] for any [b],
    and [neg(q)] all throw a TypeError and return nothing. *)
Theorem Quaternion_operand_rejected h q :
  is_instance h q CQuaternion ->
  (forall n, mul q (VNumber n) h
             = (Throw (TypeError "Quaternion should multiply Quaternion"), h)) /\
  (forall n, mul (VNumber n) q h
             = (Throw (TypeError
                  "number should multiply Vector3, Vector4 or Matrix4"), h)) /\
  (forall b, div q b h = (Throw (TypeError "not supported"), h)) /\
  (forall b, add q b h = (Throw (TypeError "not supported"), h)) /\
  (forall b, sub q b h = (Throw (TypeError "not supported"), h)) /\
  neg q h = (Throw (TypeError "not supported"), h).
Proof.
  intros Hq. pose proof (kind_of_instance _ _ _ Hq) as Kq.
  repeat split; intros.
  - change (mul q (VNumber n) h) with (dispatch OpMul q (VNumber n) h).
    rewrite dispatch_mismatch by now rewrite Kq. now rewrite Kq.
  - change (mul (VNumber n) q h) with (dispatch OpMul (VNumber n) q h).
    now rewrite dispatch_mismatch by (cbn [kind_of]; now rewrite Kq).
  - change (div q b h) with (dispatch OpDiv q b h).
    rewrite dispatch_mismatch by now rewrite Kq. now rewrite Kq.
  - change (add q b h) with (dispatch OpAdd q b h).
    rewrite dispatch_mismatch by now rewrite Kq. now rewrite Kq.
  - change (sub q b h) with (dispatch OpSub q b h).
    rewrite dispatch_mismatch by now rewrite Kq. now rewrite Kq.
  - change (neg q h) with (dispatch OpNeg q VUndefined h).
    rewrite dispatch_mismatch by now rewrite Kq. now rewrite Kq.
Qed.

Lemma Quaternion_operand_rejected_sample :
  (forall n, mul (VRef 6%nat) (VNumber n) sample
             = (Throw (TypeError "Quaternion should multiply Quaternion"),
                sample)) /\
  (forall n, mul (VNumber n) (VRef 6%nat) sample
             = (Throw (TypeError
                  "number should multiply Vector3, Vector4 or Matrix4"),
                sample)) /\
  (forall b, div (VRef 6%nat) b sample
             = (Throw (TypeError "not supported"), sample)) /\
  (forall b, add (VRef 6%nat) b sample
             = (Throw (TypeError "not supported"), sample)) /\
  (forall b, sub (VRef 6%nat) b sample
             = (Throw (TypeError "not supported"), sample)) /\
  neg (VRef 6%nat) sample = (Throw (TypeError "not supported"), sample).
Proof.
  apply (Quaternion_operand_rejected sample (VRef 6%nat)).
  exists 6%nat, (VRef 7%nat). split; reflexivity.
Defined.

(** ** The claims on products *)

(** C1: [Quaternion.mul(q1, q2)] returns a quaternion whose components
    are those of the Hamilton product of [q1 = (x1, y1, z1, w1)] and
    [q2 = (x2, y2, z2, w2)]. *)
Theorem Quaternion_mul_Hamilton h q1 q2 x1 y1 z1 w1 x2 y2 z2 w2 :
  is_Quaternion h q1 (Vec4 x1 y1 z1 w1) ->
  is_Quaternion h q2 (Vec4 x2 y2 z2 w2) ->
  exists r h',
    Quaternion.mul q1 q2 h = (Return r, h') /\
    is_Quaternion h' r
      (Vec4 (w1 * x2 + x1 * w2 + y1 * z2 - z1 * y2)
            (w1 * y2 + y1 * w2 + z1 * x2 - x1 * z2)
            (w1 * z2 + z1 * w2 + x1 * y2 - y1 * x2)
            (w1 * w2 - x1 * x2 - y1 * y2 - z1 * z2)).
Proof.
  intros H1 H2. eexists _, _. split.
  - now apply Quaternion_mul_run with (a := Vec4 x1 y1 z1 w1)
                                      (b := Vec4 x2 y2 z2 w2).
  - apply appended_Quaternion.
Qed.

Lemma Quaternion_mul_Hamilton_sample :
  exists r h',
    Quaternion.mul (VRef 6%nat) (VRef 8%nat) sample = (Return r, h') /\
    is_Quaternion h' r
      (Vec4 (4 * 5 + 1 * 8 + 2 * 7 - 3 * 6)
            (4 * 6 + 2 * 8 + 3 * 5 - 1 * 7)
            (4 * 7 + 3 * 8 + 1 * 6 - 2 * 5)
            (4 * 8 - 1 * 5 - 2 * 6 - 3 * 7)).
Proof.
  apply (Quaternion_mul_Hamilton sample (VRef 6%nat) (VRef 8%nat)).
  - exists 6%nat, 7%nat. repeat split; reflexivity.
  - exists 8%nat, 9%nat. repeat split; reflexivity.
Defined.

(** C6: the dispatched [mul(v, m)] on a [Vector4] and a [Matrix4] is
    [Matrix4.mul(m, v)]: the same result and the same store, namely the
    matrix-vector product. *)
Theorem mul_Vector4_Matrix4 h v m a A :
  is_Vector4 h v a -> is_Matrix4 h m A ->
  mul v m h = Matrix4.mul m v h /\
  exists r h',
    mul v m h = (Return r, h') /\ is_Vector4 h' r (mat_vec A a).
Proof.
  intros Hv Hm.
  assert (E : mul v m h = Matrix4.mul m v h).
  { destruct Hv as (lv & dv & -> & Elv & Edv).
    destruct Hm as (lm & dm & -> & Elm & Edm).
    unfold mul.
    step (instanceof_ref _ _ _ _ CVector3 Elv).
    cbv beta iota delta [class_eqb].
    step (instanceof_ref _ _ _ _ CVector4 Elv).
    cbv beta iota delta [class_eqb].
    step (instanceof_ref _ _ _ _ CMatrix4 Elm).
    reflexivity. }
  split; [assumption |].
  rewrite E. eexists _, _. split.
  - now apply Matrix4_mul_Vector4 with (A := A) (a := a).
  - apply appended_Vector4.
Qed.

Lemma mul_Vector4_Matrix4_sample :
  mul (VRef 4%nat) (VRef 10%nat) sample
  = Matrix4.mul (VRef 10%nat) (VRef 4%nat) sample /\
  exists r h',
    mul (VRef 4%nat) (VRef 10%nat) sample = (Return r, h') /\
    is_Vector4 h' r
      (mat_vec (Mat4 (Vec4 1 2 3 4) (Vec4 5 6 7 8)
                     (Vec4 9 10 11 12) (Vec4 13 14 15 16))
         (Vec4 1 2 3 4)).
Proof.
  apply (mul_Vector4_Matrix4 sample (VRef 4%nat) (VRef 10%nat)).
  - exists 4%nat, 5%nat. repeat split; reflexivity.
  - exists 10%nat, 11%nat. repeat split; reflexivity.
Defined.

(** ** Backing data *)

(** [new Vector3(d)] over an existing backing value takes it as its
    data. *)
Lemma Vector3_new_data h d u :
  h !! d = Some (Userdata u) ->
  Vector3.new (VRef d) VUndefined VUndefined h
  = (Return (VRef (length h)), h ++ [Instance CVector3 (VRef d)]).
Proof.
  intros Ed. unfold Vector3.new, new_instance.
  unfold bind at 1. unfold alloc at 1.
  unfold Vector3.constructor, undefined_number_or. cbn [typeof String.eqb].
  assert (Ed' : (h ++ [Instance CVector3 VUndefined]) !! d = Some (Userdata u))
    by now apply lookup_grow.
  unfold bind at 1.
  step (instanceof_userdata _ _ _ CVector3 Ed').
  erewrite set_data_ref by apply lookup_alloc_1.
  now rewrite insert_alloc_1.
Qed.

(** C9: a [Vector3] constructed from the backing data of a vector [v]
    reads back, through [x], [y] and [z], exactly the components of
    [v]. *)
Theorem Vector3_from_data_round_trip h v a :
  is_Vector3 h v a ->
  exists v' h',
    from_data_of v h = (Return v', h') /\
    Vector3.get_x v' h' = (Return (v3x a), h') /\
    Vector3.get_y v' h' = (Return (v3y a), h') /\
    Vector3.get_z v' h' = (Return (v3z a), h').
Proof.
  intros (l & d & -> & El & Ed).
  exists (VRef (length h)), (h ++ [Instance CVector3 (VRef d)]).
  assert (El' : (h ++ [Instance CVector3 (VRef d)]) !! length h
                = Some (Instance CVector3 (VRef d))) by apply lookup_alloc_1.
  assert (Ed' : (h ++ [Instance CVector3 (VRef d)]) !! d
                = Some (Userdata (HVector3 a))) by now apply lookup_grow.
  split; [| split; [| split]].
  - unfold from_data_of.
    step (get_data_ref _ _ _ _ El).
    now apply Vector3_new_data with (u := HVector3 a).
  - now apply read_field with (c := CVector3) (d := d) (u := HVector3 a).
  - now apply read_field with (c := CVector3) (d := d) (u := HVector3 a).
  - now apply read_field with (c := CVector3) (d := d) (u := HVector3 a).
Qed.

Lemma Vector3_from_data_round_trip_sample :
  exists v' h',
    from_data_of (VRef 0%nat) sample = (Return v', h') /\
    Vector3.get_x v' h' = (Return 1, h') /\
    Vector3.get_y v' h' = (Return 2, h') /\
    Vector3.get_z v' h' = (Return 3, h').
Proof.
  apply (Vector3_from_data_round_trip sample (VRef 0%nat) (Vec3 1 2 3)).
  exists 0%nat, 1%nat. repeat split; reflexivity.
Defined.

(** ** What the operations change *)

Lemma Vector3_add_run h v1 v2 a b :
  is_Vector3 h v1 a -> is_Vector3 h v2 b ->
  Vector3.add v1 v2 h
  = (Return (VRef (length h)),
     appended h CVector3
       (HVector3 (Vec3 (v3x a + v3x b) (v3y a + v3y b) (v3z a + v3z b)))).
Proof.
  intros (l1 & d1 & -> & El1 & Ed1) (l2 & d2 & -> & El2 & Ed2).
  unfold Vector3.add, Vector3.get_x, Vector3.get_y, Vector3.get_z.
  read_getters. apply Vector3_new_numbers.
Qed.

Lemma Vector3_sub_run h v1 v2 a b :
  is_Vector3 h v1 a -> is_Vector3 h v2 b ->
  Vector3.sub v1 v2 h
  = (Return (VRef (length h)),
     appended h CVector3
       (HVector3 (Vec3 (v3x a - v3x b) (v3y a - v3y b) (v3z a - v3z b)))).
Proof.
  intros (l1 & d1 & -> & El1 & Ed1) (l2 & d2 & -> & El2 & Ed2).
  unfold Vector3.sub, Vector3.get_x, Vector3.get_y, Vector3.get_z.
  read_getters. apply Vector3_new_numbers.
Qed.

Lemma Vector3_neg_run h v1 a :
  is_Vector3 h v1 a ->
  Vector3.neg v1 h
  = (Return (VRef (length h)),
     appended h CVector3 (HVector3 (Vec3 (- v3x a) (- v3y a) (- v3z a)))).
Proof.
  intros (l1 & d1 & -> & El1 & Ed1).
  unfold Vector3.neg, Vector3.get_x, Vector3.get_y, Vector3.get_z.
  read_getters. apply Vector3_new_numbers.
Qed.

Lemma Vector3_mul_run h v1 a n :
  is_Vector3 h v1 a ->
  Vector3.mul v1 n h
  = (Return (VRef (length h)),
     appended h CVector3 (HVector3 (Vec3 (v3x a * n) (v3y a * n) (v3z a * n)))).
Proof.
  intros (l1 & d1 & -> & El1 & Ed1).
  unfold Vector3.mul, Vector3.get_x, Vector3.get_y, Vector3.get_z.
  read_getters. apply Vector3_new_numbers.
Qed.

Lemma appended_returns_new h v1 v2 a b (call : M value) result :
  is_Vector3 h v1 a -> is_Vector3 h v2 b ->
  call h = (Return (VRef (length h)), appended h CVector3 (HVector3 result)) ->
  returns_new_Vector3 h v1 v2 a b call result.
Proof.
  intros H1 H2 E.
  exists (length h), (S (length h)), (appended h CVector3 (HVector3 result)).
  repeat split.
  - assumption.
  - apply extends_appended.
  - apply lookup_fresh.
  - apply lookup_ge_None. lia.
  - destruct H1 as (l1 & d1 & -> & El1 & _). intros [= <-].
    rewrite lookup_fresh in El1. discriminate.
  - destruct H2 as (l2 & d2 & -> & El2 & _). intros [= <-].
    rewrite lookup_fresh in El2. discriminate.
  - apply appended_instance.
  - apply appended_data.
  - now apply is_Vector3_grow.
  - now apply is_Vector3_grow.
Qed.

(** C8: the [Vector3] operations [add], [sub], [neg], [mul] and [div]
    return a new instance over new data and leave every object of the
    store, so both operands, as they were; a field setter ([v.x = n],
    [v.y = n], [v.z = n] on a vector, [m.c<i> = c] on a matrix)
    allocates nothing and replaces the instance's own backing value
    where it stands. *)
Theorem operations_return_new_setters_write_in_place
    h v1 v2 a b n m A c col :
  is_Vector3 h v1 a -> is_Vector3 h v2 b ->
  is_Matrix4 h m A -> is_Vector4 h c col ->
  returns_new_Vector3 h v1 v2 a b (Vector3.add v1 v2)
    (Vec3 (v3x a + v3x b) (v3y a + v3y b) (v3z a + v3z b)) /\
  returns_new_Vector3 h v1 v2 a b (Vector3.sub v1 v2)
    (Vec3 (v3x a - v3x b) (v3y a - v3y b) (v3z a - v3z b)) /\
  returns_new_Vector3 h v1 v2 a b (Vector3.neg v1)
    (Vec3 (- v3x a) (- v3y a) (- v3z a)) /\
  returns_new_Vector3 h v1 v2 a b (Vector3.mul v1 n)
    (Vec3 (v3x a * n) (v3y a * n) (v3z a * n)) /\
  returns_new_Vector3 h v1 v2 a b (Vector3.div v1 n)
    (Vec3 (v3x a * (1 / n)) (v3y a * (1 / n)) (v3z a * (1 / n))) /\
  (exists l d,
      v1 = VRef l /\ h !! l = Some (Instance CVector3 (VRef d)) /\
      h !! d = Some (Userdata (HVector3 a)) /\
      Vector3.set_x v1 n h
      = (Return tt, <[d := Userdata (HVector3 (Vec3 n (v3y a) (v3z a)))]> h) /\
      Vector3.set_y v1 n h
      = (Return tt, <[d := Userdata (HVector3 (Vec3 (v3x a) n (v3z a)))]> h) /\
      Vector3.set_z v1 n h
      = (Return tt, <[d := Userdata (HVector3 (Vec3 (v3x a) (v3y a) n))]> h)) /\
  (exists l d,
      m = VRef l /\ h !! l = Some (Instance CMatrix4 (VRef d)) /\
      h !! d = Some (Userdata (HMatrix4 A)) /\
      forall i,
        Matrix4.set_c i m c h
        = (Return tt, <[d := Userdata (HMatrix4 (set_column A i col))]> h)).
Proof.
  intros H1 H2 Hm Hc.
  repeat match goal with |- _ /\ _ => split end.
  - apply appended_returns_new; auto using Vector3_add_run.
  - apply appended_returns_new; auto using Vector3_sub_run.
  - apply appended_returns_new; auto using Vector3_neg_run.
  - apply appended_returns_new; auto using Vector3_mul_run.
  - apply appended_returns_new; auto. unfold Vector3.div.
    now apply Vector3_mul_run.
  - destruct H1 as (l & d & -> & El & Ed). exists l, d.
    repeat split; try assumption;
      now apply write_field with (c := CVector3) (u := HVector3 a).
  - destruct Hm as (l & d & -> & El & Ed). exists l, d.
    repeat split; try assumption.
    intros i. now apply Matrix4_set_c.
Qed.

Lemma operations_return_new_setters_write_in_place_sample :
  let v1 := VRef 0%nat in
  let v2 := VRef 2%nat in
  let a := Vec3 1 2 3 in
  let b := Vec3 4 5 6 in
  let A := Mat4 (Vec4 2 0 0 0) (Vec4 0 2 0 0)
                (Vec4 0 0 2 0) (Vec4 1 1 1 1) in
  returns_new_Vector3 sample v1 v2 a b (Vector3.add v1 v2)
    (Vec3 (1 + 4) (2 + 5) (3 + 6)) /\
  returns_new_Vector3 sample v1 v2 a b (Vector3.sub v1 v2)
    (Vec3 (1 - 4) (2 - 5) (3 - 6)) /\
  returns_new_Vector3 sample v1 v2 a b (Vector3.neg v1)
    (Vec3 (- 1) (- 2) (- 3)) /\
  returns_new_Vector3 sample v1 v2 a b (Vector3.mul v1 7)
    (Vec3 (1 * 7) (2 * 7) (3 * 7)) /\
  returns_new_Vector3 sample v1 v2 a b (Vector3.div v1 7)
    (Vec3 (1 * (1 / 7)) (2 * (1 / 7)) (3 * (1 / 7))) /\
  (exists l d,
      v1 = VRef l /\ sample !! l = Some (Instance CVector3 (VRef d)) /\
      sample !! d = Some (Userdata (HVector3 a)) /\
      Vector3.set_x v1 7 sample
      = (Return tt, <[d := Userdata (HVector3 (Vec3 7 2 3))]> sample) /\
      Vector3.set_y v1 7 sample
      = (Return tt, <[d := Userdata (HVector3 (Vec3 1 7 3))]> sample) /\
      Vector3.set_z v1 7 sample
      = (Return tt, <[d := Userdata (HVector3 (Vec3 1 2 7))]> sample)) /\
  (exists l d,
      VRef 12%nat = VRef l /\
      sample !! l = Some (Instance CMatrix4 (VRef d)) /\
      sample !! d = Some (Userdata (HMatrix4 A)) /\
      forall i,
        Matrix4.set_c i (VRef 12%nat) (VRef 4%nat) sample
        = (Return tt,
           <[d := Userdata (HMatrix4 (set_column A i (Vec4 1 2 3 4)))]> sample)).
Proof.
  apply (operations_return_new_setters_write_in_place sample
           (VRef 0%nat) (VRef 2%nat) (Vec3 1 2 3) (Vec3 4 5 6) 7
           (VRef 12%nat)
           (Mat4 (Vec4 2 0 0 0) (Vec4 0 2 0 0)
                 (Vec4 0 0 2 0) (Vec4 1 1 1 1))
           (VRef 4%nat) (Vec4 1 2 3 4)).
  - exists 0%nat, 1%nat. repeat split; reflexivity.
  - exists 2%nat, 3%nat. repeat split; reflexivity.
  - exists 12%nat, 13%nat. repeat split; reflexivity.
  - exists 4%nat, 5%nat. repeat split; reflexivity.
Defined.

(** X11: a vector built from the backing data of another shares it: a
    write through the one is read through the other. *)
Lemma write_seen_through_alias h v a n :
  is_Vector3 h v a ->
  exists v' h1 h2,
    from_data_of v h = (Return v', h1) /\
    Vector3.set_x v' n h1 = (Return tt, h2) /\
    Vector3.get_x v h2 = (Return n, h2).
Proof.
  intros (l & d & -> & El & Ed).
  set (h1 := h ++ [Instance CVector3 (VRef d)]).
  assert (El' : h1 !! length h = Some (Instance CVector3 (VRef d)))
    by apply lookup_alloc_1.
  assert (Ed' : h1 !! d = Some (Userdata (HVector3 a)))
    by now apply lookup_grow.
  assert (Hd : (d < length h1)%nat) by (eapply lookup_lt_Some; eassumption).
  exists (VRef (length h)), h1,
    (<[d := Userdata (HVector3 (Vec3 n (v3y a) (v3z a)))]> h1).
  split; [| split].
  - unfold from_data_of. step (get_data_ref _ _ _ _ El).
    now apply Vector3_new_data with (u := HVector3 a).
  - now apply write_field with (c := CVector3) (u := HVector3 a).
  - eapply read_field with (c := CVector3) (d := d).
    + rewrite list_lookup_insert_ne; [now apply lookup_grow |].
      intros ->. rewrite El in Ed. discriminate.
    + now apply list_lookup_insert_eq.
    + reflexivity.
Qed.

(** ** Binary64 arithmetic with 0 and 1 *)

Section binary64.

Local Open Scope Z_scope.

Lemma Prim2SF_one : Prim2SF 1 = S754_finite false 4503599627370496 (-52).
Proof. vm_compute. reflexivity. Qed.

Lemma Prim2SF_zero : Prim2SF 0 = S754_zero false.
Proof. vm_compute. reflexivity. Qed.

Lemma bounded_inv m e :
  bounded prec emax m e = true ->
  fexp prec emax (Zpos (digits2_pos m) + e) = e /\ e <= emax - prec.
Proof.
  unfold bounded, canonical_mantissa.
  intros H. apply andb_true_iff in H as [H1 H2].
  split; [now apply Z.eqb_eq | now apply Z.leb_le].
Qed.

Lemma mul_shifted m : (4503599627370496 * m)%positive = shifted m.
Proof. reflexivity. Qed.

Lemma digits_shifted m :
  Zpos (digits2_pos (shifted m)) = Zpos (digits2_pos m) + 52.
Proof. unfold shifted. cbn [digits2_pos]. lia. Qed.

Lemma shr_shifted m :
  SpecFloat.iter_pos shr_1 52
    {| shr_m := Zpos (shifted m); shr_r := false; shr_s := false |}
  = {| shr_m := Zpos m; shr_r := false; shr_s := false |}.
Proof. reflexivity. Qed.

(** Rounding a mantissa that was only shifted gives the number back. *)
Lemma round_shifted s m e :
  bounded prec emax m e = true ->
  binary_round_aux prec emax s (Zpos (4503599627370496 * m)) (e + -52) loc_Exact
  = S754_finite s m e.
Proof.
  intros Hb. destruct (bounded_inv m e Hb) as [Hc He].
  rewrite mul_shifted.
  unfold binary_round_aux.
  assert (E1 : shr_fexp prec emax (Zpos (shifted m)) (e + -52) loc_Exact
               = ({| shr_m := Zpos m; shr_r := false; shr_s := false |}, e)).
  { unfold shr_fexp. cbn [Zdigits2].
    replace (Zpos (digits2_pos (shifted m)) + (e + -52))
      with (Zpos (digits2_pos m) + e) by (rewrite digits_shifted; lia).
    rewrite Hc.
    replace (e - (e + -52)) with 52 by lia.
    unfold shr. cbn [shr_record_of_loc]. rewrite shr_shifted.
    f_equal. lia. }
  rewrite E1. cbn [shr_m loc_of_shr_record round_nearest_even].
  assert (E2 : shr_fexp prec emax (Zpos m) e loc_Exact
               = ({| shr_m := Zpos m; shr_r := false; shr_s := false |}, e)).
  { unfold shr_fexp. cbn [Zdigits2]. rewrite Hc, Z.sub_diag. reflexivity. }
  rewrite E2. cbn [shr_m].
  apply Z.leb_le in He. now rewrite He.
Qed.

(** A number that passes [Number.isFinite] is a zero or a finite
    binary64 value. *)
Lemma is_finite_cases x :
  is_finite x = true ->
  (exists s, Prim2SF x = S754_zero s) \/
  (exists s m e, Prim2SF x = S754_finite s m e /\ bounded prec emax m e = true).
Proof.
  intros Hf. pose proof (Prim2SF_valid x) as Hv.
  unfold is_finite in Hf. apply negb_true_iff, orb_false_iff in Hf as [Hn Hi].
  unfold Prim2SF in *. rewrite Hn, Hi in *.
  destruct (is_zero x); [left; eauto |].
  destruct (Z.frexp x) as [r ex].
  destruct (shr_fexp _ _ _ _ _) as [rec e'].
  destruct (shr_m rec); [left; eauto | right; eauto | left; eauto].
Qed.

Lemma closeF_refl x : is_finite x = true -> closeF x x.
Proof.
  intros Hf. unfold closeF.
  destruct (is_finite_cases x Hf) as [[s ->] | (s & m & e & -> & _)];
    constructor.
Qed.

Lemma mul_zero_r x : is_finite x = true -> zeroF (x * 0)%float.
Proof.
  intros Hf. unfold zeroF. rewrite mul_spec, Prim2SF_zero.
  destruct (is_finite_cases x Hf) as [[s ->] | (s & m & e & -> & _)];
    cbn; eauto.
Qed.

Lemma mul_zero_l x : is_finite x = true -> zeroF (0 * x)%float.
Proof.
  intros Hf. unfold zeroF. rewrite mul_spec, Prim2SF_zero.
  destruct (is_finite_cases x Hf) as [[s ->] | (s & m & e & -> & _)];
    cbn; eauto.
Qed.

Lemma mul_one_r x : is_finite x = true -> closeF (x * 1)%float x.
Proof.
  intros Hf. unfold closeF. rewrite mul_spec, Prim2SF_one.
  destruct (is_finite_cases x Hf) as [[s ->] | (s & m & e & -> & Hb)].
  - cbn. constructor.
  - unfold SF64mul, SFmul.
    rewrite Pos.mul_comm, xorb_false_r, round_shifted by assumption.
    constructor.
Qed.

Lemma mul_one_l x : is_finite x = true -> closeF (1 * x)%float x.
Proof.
  intros Hf. unfold closeF. rewrite mul_spec, Prim2SF_one.
  destruct (is_finite_cases x Hf) as [[s ->] | (s & m & e & -> & Hb)].
  - cbn. constructor.
  - unfold SF64mul, SFmul.
    rewrite Z.add_comm, xorb_false_l, round_shifted by assumption.
    constructor.
Qed.

Lemma add_zero_r u x z : closeF u x -> zeroF z -> closeF (u + z)%float x.
Proof.
  unfold closeF, zeroF. intros Hu [sz Hz]. rewrite add_spec, Hz.
  inversion Hu; cbn.
  - destruct s', sz; constructor.
  - constructor.
Qed.

Lemma add_zero_l u x z : closeF u x -> zeroF z -> closeF (z + u)%float x.
Proof.
  unfold closeF, zeroF. intros Hu [sz Hz]. rewrite add_spec, Hz.
  inversion Hu; cbn.
  - destruct s', sz; constructor.
  - constructor.
Qed.

Lemma sub_zero_r u x z : closeF u x -> zeroF z -> closeF (u - z)%float x.
Proof.
  unfold closeF, zeroF. intros Hu [sz Hz]. rewrite sub_spec, Hz.
  inversion Hu; cbn.
  - destruct s', sz; constructor.
  - constructor.
Qed.

Lemma close_eqb a b : close a b -> SFeqb a b = true.
Proof.
  intros []; unfold SFeqb, SFcompare; [reflexivity |].
  rewrite Z.compare_refl, Pos.compare_cont_refl.
  now destruct s.
Qed.

Lemma closeF_same_number u x : closeF u x -> same_number u x.
Proof.
  unfold closeF. intros Hc. split.
  - rewrite FloatAxioms.eqb_spec. now apply close_eqb.
  - intros Hz. rewrite FloatAxioms.eqb_spec, Prim2SF_zero in Hz. apply Prim2SF_inj.
    inversion Hc as [s' s E' E | s m e E' E]; [| reflexivity].
    rewrite <- E in Hz. discriminate Hz.
Qed.

End binary64.

Create HintDb binary64.

#[local] Hint Resolve mul_zero_r mul_zero_l mul_one_r mul_one_l
  add_zero_r add_zero_l sub_zero_r closeF_same_number : binary64.

(** ** Composition with the identity quaternion *)

Lemma finite4_inv x y z w :
  finite4 (Vec4 x y z w) = true ->
  is_finite x = true /\ is_finite y = true /\
  is_finite z = true /\ is_finite w = true.
Proof.
  unfold finite4. cbn [v4x v4y v4z v4w]. intros H.
  apply andb_true_iff in H as [H Hw].
  apply andb_true_iff in H as [H Hz].
  apply andb_true_iff in H as [Hx Hy]. auto.
Qed.

Lemma hamilton_identity_r a :
  finite4 a = true -> same_numbers (hamilton a (Vec4 0 0 0 1)) a.
Proof.
  destruct a as [x y z w]. intros Hf.
  apply finite4_inv in Hf as (Hx & Hy & Hz & Hw).
  unfold same_numbers, hamilton. cbn [v4x v4y v4z v4w].
  split; [| split; [| split]];
    apply closeF_same_number; auto 10 with binary64.
Qed.

Lemma hamilton_identity_l a :
  finite4 a = true -> same_numbers (hamilton (Vec4 0 0 0 1) a) a.
Proof.
  destruct a as [x y z w]. intros Hf.
  apply finite4_inv in Hf as (Hx & Hy & Hz & Hw).
  unfold same_numbers, hamilton. cbn [v4x v4y v4z v4w].
  split; [| split; [| split]];
    apply closeF_same_number; auto 10 with binary64.
Qed.

(** C7, as amended: for a quaternion [q] whose four components are
    finite, [Quaternion.mul(q, new Quaternion())] and
    [Quaternion.mul(new Quaternion(), q)] have components equal as
    numbers to those of [q], and identical to them wherever the
    component of [q] is not a zero. *)
Theorem Quaternion_mul_identity_finite h q a :
  is_Quaternion h q a -> finite4 a = true ->
  (exists r h' c,
      mul_identity_right q h = (Return r, h') /\
      is_Quaternion h' r c /\ same_numbers c a) /\
  (exists r h' c,
      mul_identity_left q h = (Return r, h') /\
      is_Quaternion h' r c /\ same_numbers c a).
Proof.
  intros Hq Hf.
  set (h1 := appended h CQuaternion (HQuat (Vec4 0 0 0 1))).
  assert (Hq1 : is_Quaternion h1 q a) by now apply is_Quaternion_grow.
  assert (Hi : is_Quaternion h1 (VRef (length h)) (Vec4 0 0 0 1))
    by apply appended_Quaternion.
  split.
  - exists (VRef (length h1)),
      (appended h1 CQuaternion (HQuat (hamilton a (Vec4 0 0 0 1)))),
      (hamilton a (Vec4 0 0 0 1)).
    split; [| split].
    + unfold mul_identity_right.
      step (Quaternion_new_identity h). fold h1.
      now apply Quaternion_mul_run.
    + apply appended_Quaternion.
    + now apply hamilton_identity_r.
  - exists (VRef (length h1)),
      (appended h1 CQuaternion (HQuat (hamilton (Vec4 0 0 0 1) a))),
      (hamilton (Vec4 0 0 0 1) a).
    split; [| split].
    + unfold mul_identity_left.
      step (Quaternion_new_identity h). fold h1.
      now apply Quaternion_mul_run.
    + apply appended_Quaternion.
    + now apply hamilton_identity_l.
Qed.

Lemma Quaternion_mul_identity_finite_sample :
  (exists r h' c,
      mul_identity_right (VRef 6%nat) sample = (Return r, h') /\
      is_Quaternion h' r c /\ same_numbers c (Vec4 1 2 3 4)) /\
  (exists r h' c,
      mul_identity_left (VRef 6%nat) sample = (Return r, h') /\
      is_Quaternion h' r c /\ same_numbers c (Vec4 1 2 3 4)).
Proof.
  apply (Quaternion_mul_identity_finite sample (VRef 6%nat) (Vec4 1 2 3 4)).
  - exists 6%nat, 7%nat. repeat split; reflexivity.
  - reflexivity.
Defined.

(** C7 as stated fails.  With [q = (Infinity, 0, 0, 1)] the product
    with the identity has [NaN] for [y], [z] and [w], on either side;
    with [q = (-0, 0, 0, 1)] it has [x = +0], equal to [-0] as a number
    but not the same value. *)
Lemma Quaternion_mul_identity_not_identity :
  is_Quaternion unbounded (VRef 0%nat) (Vec4 infinity 0 0 1) /\
  (exists r h',
      mul_identity_right (VRef 0%nat) unbounded = (Return r, h') /\
      is_Quaternion h' r (Vec4 infinity nan nan nan)) /\
  (exists r h',
      mul_identity_left (VRef 0%nat) unbounded = (Return r, h') /\
      is_Quaternion h' r (Vec4 infinity nan nan nan)) /\
  (nan =? 0) = false /\ (nan =? 1) = false /\
  is_Quaternion signed_zero (VRef 0%nat) (Vec4 (-0) 0 0 1) /\
  (exists r h',
      mul_identity_right (VRef 0%nat) signed_zero = (Return r, h') /\
      is_Quaternion h' r (Vec4 0 0 0 1)) /\
  (0 =? -0) = true /\ PrimFloat.Leibniz.eqb 0 (-0) = false.
Proof.
  repeat match goal with |- _ /\ _ => split end; try reflexivity.
  - exists 0%nat, 1%nat. repeat split; reflexivity.
  - eexists _, _. split; [vm_compute; reflexivity |].
    exists 4%nat, 5%nat. repeat split; reflexivity.
  - eexists _, _. split; [vm_compute; reflexivity |].
    exists 4%nat, 5%nat. repeat split; reflexivity.
  - exists 0%nat, 1%nat. repeat split; reflexivity.
  - eexists _, _. split; [vm_compute; reflexivity |].
    exists 4%nat, 5%nat. repeat split; reflexivity.
Qed.

(** ** Further properties: the dispatched operators on vectors *)

Lemma appended_returns_new_instance h (call : M value) c u :
  call h = (Return (VRef (length h)), appended h c u) ->
  returns_new h call c u.
Proof.
  intros E. exists (length h), (S (length h)), (appended h c u).
  repeat split.
  - assumption.
  - apply extends_appended.
  - apply lookup_fresh.
  - apply lookup_ge_None. lia.
  - apply appended_instance.
  - apply appended_data.
Qed.

Lemma Vector4_add_run h v1 v2 a b :
  is_Vector4 h v1 a -> is_Vector4 h v2 b ->
  Vector4.add v1 v2 h
  = (Return (VRef (length h)),
     appended h CVector4 (HVector4 (zip4 PrimFloat.add a b))).
Proof.
  intros (l1 & d1 & -> & El1 & Ed1) (l2 & d2 & -> & El2 & Ed2).
  unfold Vector4.add,
    Vector4.get_x, Vector4.get_y, Vector4.get_z, Vector4.get_w.
  read_getters. apply Vector4_new_numbers.
Qed.

Lemma Vector4_sub_run h v1 v2 a b :
  is_Vector4 h v1 a -> is_Vector4 h v2 b ->
  Vector4.sub v1 v2 h
  = (Return (VRef (length h)),
     appended h CVector4 (HVector4 (zip4 PrimFloat.sub a b))).
Proof.
  intros (l1 & d1 & -> & El1 & Ed1) (l2 & d2 & -> & El2 & Ed2).
  unfold Vector4.sub,
    Vector4.get_x, Vector4.get_y, Vector4.get_z, Vector4.get_w.
  read_getters. apply Vector4_new_numbers.
Qed.

Lemma Vector4_neg_run h v1 a :
  is_Vector4 h v1 a ->
  Vector4.neg v1 h
  = (Return (VRef (length h)),
     appended h CVector4 (HVector4 (map4 PrimFloat.opp a))).
Proof.
  intros (l1 & d1 & -> & El1 & Ed1).
  unfold Vector4.neg,
    Vector4.get_x, Vector4.get_y, Vector4.get_z, Vector4.get_w.
  read_getters. apply Vector4_new_numbers.
Qed.

Lemma Vector4_mul_run h v1 a n :
  is_Vector4 h v1 a ->
  Vector4.mul v1 n h
  = (Return (VRef (length h)),
     appended h CVector4 (HVector4 (map4 (fun x => x * n) a))).
Proof.
  intros (l1 & d1 & -> & El1 & Ed1).
  unfold Vector4.mul,
    Vector4.get_x, Vector4.get_y, Vector4.get_z, Vector4.get_w.
  read_getters. apply Vector4_new_numbers.
Qed.

Lemma instanceof_number n c h : instanceof (VNumber n) c h = (Return false, h).
Proof. reflexivity. Qed.

(** Settle the [instanceof] tests at the head of a dispatcher from what
    the store holds. *)
Ltac settle_instanceof :=
  repeat (rewrite ?bind_assoc;
          match goal with
          | E : ?h !! ?l = Some (Instance _ _)
            |- context [bind (instanceof (VRef ?l) ?c) _ ?h] =>
              rewrite (bind_Return _ _ _ _ _ (instanceof_ref _ _ _ _ c E));
              cbv beta iota delta [class_eqb]
          | |- context [bind (instanceof (VNumber ?n) ?c) _ ?h] =>
              rewrite (bind_Return _ _ _ _ _ (instanceof_number n c h));
              cbv beta iota
          end).

Lemma add_Vector3 h v1 v2 a b :
  is_Vector3 h v1 a -> is_Vector3 h v2 b -> add v1 v2 h = Vector3.add v1 v2 h.
Proof.
  intros (l1 & d1 & -> & El1 & Ed1) (l2 & d2 & -> & El2 & Ed2).
  unfold add. now settle_instanceof.
Qed.

Lemma sub_Vector3 h v1 v2 a b :
  is_Vector3 h v1 a -> is_Vector3 h v2 b -> sub v1 v2 h = Vector3.sub v1 v2 h.
Proof.
  intros (l1 & d1 & -> & El1 & Ed1) (l2 & d2 & -> & El2 & Ed2).
  unfold sub. now settle_instanceof.
Qed.

Lemma neg_Vector3 h v1 a : is_Vector3 h v1 a -> neg v1 h = Vector3.neg v1 h.
Proof.
  intros (l1 & d1 & -> & El1 & Ed1). unfold neg. now settle_instanceof.
Qed.

Lemma mul_Vector3_number h v1 a n :
  is_Vector3 h v1 a -> mul v1 (VNumber n) h = Vector3.mul v1 n h.
Proof.
  intros (l1 & d1 & -> & El1 & Ed1). unfold mul. now settle_instanceof.
Qed.

Lemma mul_number_Vector3 h v1 a n :
  is_Vector3 h v1 a -> mul (VNumber n) v1 h = Vector3.mul v1 n h.
Proof.
  intros (l1 & d1 & -> & El1 & Ed1). unfold mul. now settle_instanceof.
Qed.

Lemma div_Vector3 h v1 a n :
  is_Vector3 h v1 a -> div v1 (VNumber n) h = Vector3.div v1 n h.
Proof.
  intros (l1 & d1 & -> & El1 & Ed1). unfold div. now settle_instanceof.
Qed.

Lemma add_Vector4 h v1 v2 a b :
  is_Vector4 h v1 a -> is_Vector4 h v2 b -> add v1 v2 h = Vector4.add v1 v2 h.
Proof.
  intros (l1 & d1 & -> & El1 & Ed1) (l2 & d2 & -> & El2 & Ed2).
  unfold add. now settle_instanceof.
Qed.

Lemma sub_Vector4 h v1 v2 a b :
  is_Vector4 h v1 a -> is_Vector4 h v2 b -> sub v1 v2 h = Vector4.sub v1 v2 h.
Proof.
  intros (l1 & d1 & -> & El1 & Ed1) (l2 & d2 & -> & El2 & Ed2).
  unfold sub. now settle_instanceof.
Qed.

Lemma neg_Vector4 h v1 a : is_Vector4 h v1 a -> neg v1 h = Vector4.neg v1 h.
Proof.
  intros (l1 & d1 & -> & El1 & Ed1). unfold neg. now settle_instanceof.
Qed.

Lemma mul_Vector4_number h v1 a n :
  is_Vector4 h v1 a -> mul v1 (VNumber n) h = Vector4.mul v1 n h.
Proof.
  intros (l1 & d1 & -> & El1 & Ed1). unfold mul. now settle_instanceof.
Qed.

Lemma mul_number_Vector4 h v1 a n :
  is_Vector4 h v1 a -> mul (VNumber n) v1 h = Vector4.mul v1 n h.
Proof.
  intros (l1 & d1 & -> & El1 & Ed1). unfold mul. now settle_instanceof.
Qed.

Lemma div_Vector4 h v1 a n :
  is_Vector4 h v1 a -> div v1 (VNumber n) h = Vector4.div v1 n h.
Proof.
  intros (l1 & d1 & -> & El1 & Ed1). unfold div. now settle_instanceof.
Qed.

(** X1: on [Vector3] operands the dispatched [add], [sub], [neg], [mul]
    (with the number on either side) and [div] each return a new
    [Vector3] holding the component-wise result, [div] multiplying by
    the reciprocal [1 / n]; the store only grows. *)
Theorem dispatch_on_Vector3 h v1 v2 a b n :
  is_Vector3 h v1 a -> is_Vector3 h v2 b ->
  returns_new h (add v1 v2) CVector3 (HVector3 (zip3 PrimFloat.add a b)) /\
  returns_new h (sub v1 v2) CVector3 (HVector3 (zip3 PrimFloat.sub a b)) /\
  returns_new h (neg v1) CVector3 (HVector3 (map3 PrimFloat.opp a)) /\
  returns_new h (mul v1 (VNumber n)) CVector3
    (HVector3 (map3 (fun x => x * n) a)) /\
  returns_new h (mul (VNumber n) v1) CVector3
    (HVector3 (map3 (fun x => x * n) a)) /\
  returns_new h (div v1 (VNumber n)) CVector3
    (HVector3 (map3 (fun x => x * (1 / n)) a)).
Proof.
  intros H1 H2.
  repeat match goal with |- _ /\ _ => split end;
    apply appended_returns_new_instance.
  - erewrite add_Vector3 by eassumption. now apply Vector3_add_run.
  - erewrite sub_Vector3 by eassumption. now apply Vector3_sub_run.
  - erewrite neg_Vector3 by eassumption. now apply Vector3_neg_run.
  - erewrite mul_Vector3_number by eassumption. now apply Vector3_mul_run.
  - erewrite mul_number_Vector3 by eassumption. now apply Vector3_mul_run.
  - erewrite div_Vector3 by eassumption. unfold Vector3.div.
    now apply Vector3_mul_run.
Qed.

Lemma dispatch_on_Vector3_sample :
  let v1 := VRef 0%nat in
  let v2 := VRef 2%nat in
  let a := Vec3 1 2 3 in
  let b := Vec3 4 5 6 in
  returns_new sample (add v1 v2) CVector3 (HVector3 (zip3 PrimFloat.add a b)) /\
  returns_new sample (sub v1 v2) CVector3 (HVector3 (zip3 PrimFloat.sub a b)) /\
  returns_new sample (neg v1) CVector3 (HVector3 (map3 PrimFloat.opp a)) /\
  returns_new sample (mul v1 (VNumber 7)) CVector3
    (HVector3 (map3 (fun x => x * 7) a)) /\
  returns_new sample (mul (VNumber 7) v1) CVector3
    (HVector3 (map3 (fun x => x * 7) a)) /\
  returns_new sample (div v1 (VNumber 7)) CVector3
    (HVector3 (map3 (fun x => x * (1 / 7)) a)).
Proof.
  apply (dispatch_on_Vector3 sample (VRef 0%nat) (VRef 2%nat)
           (Vec3 1 2 3) (Vec3 4 5 6) 7).
  - exists 0%nat, 1%nat. repeat split; reflexivity.
  - exists 2%nat, 3%nat. repeat split; reflexivity.
Defined.

(** X2: the [Vector4] operations [add], [sub], [neg], [mul] and [div],
    called directly or through the dispatched operators (with the number
    of [mul] on either side), each return a new [Vector4] holding the
    component-wise result; the store only grows, so the operands keep
    their components. *)
Theorem operations_on_Vector4 h v1 v2 a b n :
  is_Vector4 h v1 a -> is_Vector4 h v2 b ->
  returns_new h (Vector4.add v1 v2) CVector4 (HVector4 (zip4 PrimFloat.add a b)) /\
  returns_new h (Vector4.sub v1 v2) CVector4 (HVector4 (zip4 PrimFloat.sub a b)) /\
  returns_new h (Vector4.neg v1) CVector4 (HVector4 (map4 PrimFloat.opp a)) /\
  returns_new h (Vector4.mul v1 n) CVector4
    (HVector4 (map4 (fun x => x * n) a)) /\
  returns_new h (Vector4.div v1 n) CVector4
    (HVector4 (map4 (fun x => x * (1 / n)) a)) /\
  add v1 v2 h = Vector4.add v1 v2 h /\
  sub v1 v2 h = Vector4.sub v1 v2 h /\
  neg v1 h = Vector4.neg v1 h /\
  mul v1 (VNumber n) h = Vector4.mul v1 n h /\
  mul (VNumber n) v1 h = Vector4.mul v1 n h /\
  div v1 (VNumber n) h = Vector4.div v1 n h.
Proof.
  intros H1 H2.
  repeat match goal with |- _ /\ _ => split end;
    try apply appended_returns_new_instance.
  - now apply Vector4_add_run.
  - now apply Vector4_sub_run.
  - now apply Vector4_neg_run.
  - now apply Vector4_mul_run.
  - unfold Vector4.div. now apply Vector4_mul_run.
  - eapply add_Vector4; eassumption.
  - eapply sub_Vector4; eassumption.
  - eapply neg_Vector4; eassumption.
  - eapply mul_Vector4_number; eassumption.
  - eapply mul_number_Vector4; eassumption.
  - eapply div_Vector4; eassumption.
Qed.

Lemma operations_on_Vector4_sample :
  let v1 := VRef 4%nat in
  let v2 := VRef 6%nat in
  let a := Vec4 1 2 3 4 in
  let b := Vec4 8 7 6 5 in
  returns_new bench (Vector4.add v1 v2) CVector4 (HVector4 (zip4 PrimFloat.add a b)) /\
  returns_new bench (Vector4.sub v1 v2) CVector4 (HVector4 (zip4 PrimFloat.sub a b)) /\
  returns_new bench (Vector4.neg v1) CVector4 (HVector4 (map4 PrimFloat.opp a)) /\
  returns_new bench (Vector4.mul v1 7) CVector4
    (HVector4 (map4 (fun x => x * 7) a)) /\
  returns_new bench (Vector4.div v1 7) CVector4
    (HVector4 (map4 (fun x => x * (1 / 7)) a)) /\
  add v1 v2 bench = Vector4.add v1 v2 bench /\
  sub v1 v2 bench = Vector4.sub v1 v2 bench /\
  neg v1 bench = Vector4.neg v1 bench /\
  mul v1 (VNumber 7) bench = Vector4.mul v1 7 bench /\
  mul (VNumber 7) v1 bench = Vector4.mul v1 7 bench /\
  div v1 (VNumber 7) bench = Vector4.div v1 7 bench.
Proof.
  apply (operations_on_Vector4 bench (VRef 4%nat) (VRef 6%nat)
           (Vec4 1 2 3 4) (Vec4 8 7 6 5) 7).
  - exists 4%nat, 5%nat. repeat split; reflexivity.
  - exists 6%nat, 7%nat. repeat split; reflexivity.
Defined.

(** ** Further properties: matrices *)

(** One column of the scaled matrix: [Vector4.mul(m1.c<i>, n)]. *)
Lemma Matrix4_scale_column h m A i n :
  is_Matrix4 h m A ->
  exists r h',
    extends h h' /\ is_Vector4 h' r (map4 (fun x => x * n) (column A i)) /\
    forall T (k : value -> M T),
      bind (Matrix4.get_c i m) (fun a => bind (Vector4.mul a n) k) h = k r h'.
Proof.
  intros Hm.
  set (h1 := h ++ [Userdata (HVector4 (column A i));
                   Instance CVector4 (VRef (length h))]).
  exists (VRef (length h1)),
    (appended h1 CVector4 (HVector4 (map4 (fun x => x * n) (column A i)))).
  split; [| split].
  - eapply extends_trans; [| apply extends_appended]. now eexists.
  - apply appended_Vector4.
  - intros T k.
    step (Matrix4_get_c h m A i Hm). fold h1.
    now step (Vector4_mul_run h1 _ _ n (Matrix4_get_c_Vector4 h A i)).
Qed.

Lemma Matrix4_mul_number h m A n :
  is_Matrix4 h m A ->
  exists r h',
    Matrix4.mul m (VNumber n) h = (Return r, h') /\
    extends h h' /\ fresh h r /\
    is_Matrix4 h' r (map16 (fun x => x * n) A).
Proof.
  intros Hm.
  destruct (Matrix4_scale_column h m A I0 n Hm)
    as (r0 & h0 & X0 & V0 & E0).
  destruct (Matrix4_scale_column h0 m A I1 n)
    as (r1 & h1 & X1 & V1 & E1); eauto using is_Matrix4_extends.
  assert (Y1 : extends h h1) by eauto using extends_trans.
  destruct (Matrix4_scale_column h1 m A I2 n)
    as (r2 & h2 & X2 & V2 & E2); eauto using is_Matrix4_extends.
  assert (Y2 : extends h h2) by eauto using extends_trans.
  destruct (Matrix4_scale_column h2 m A I3 n)
    as (r3 & h3 & X3 & V3 & E3); eauto using is_Matrix4_extends.
  assert (Y3 : extends h h3) by eauto using extends_trans.
  exists (VRef (length h3)),
    (appended h3 CMatrix4 (HMatrix4 (map16 (fun x => x * n) A))).
  split; [| split; [| split]].
  - unfold Matrix4.mul. unfold Matrix4.mul_body at 1.
    settle_instanceof.
    rewrite E0, E1, E2, E3.
    apply Matrix4_new_columns;
      eauto using is_Vector4_extends, extends_trans.
  - eauto using extends_trans, extends_appended.
  - now apply extends_fresh.
  - apply appended_Matrix4.
Qed.

(** X3: [Matrix4.mul(m, n)] with a number [n] returns a new matrix whose
    every entry is the entry of [m] times [n], leaving [m] as it was;
    the dispatched [mul(m, n)] and [mul(n, m)] are both this call. *)
Theorem Matrix4_mul_number_scales h m A n :
  is_Matrix4 h m A ->
  (exists r h' R,
      Matrix4.mul m (VNumber n) h = (Return r, h') /\
      extends h h' /\ fresh h r /\ is_Matrix4 h' r R /\
      forall c r', nth4 (column R c) r' = nth4 (column A c) r' * n) /\
  mul m (VNumber n) h = Matrix4.mul m (VNumber n) h /\
  mul (VNumber n) m h = Matrix4.mul m (VNumber n) h.
Proof.
  intros Hm. split; [| split].
  - destruct (Matrix4_mul_number h m A n Hm) as (r & h' & E & X & F & HR).
    exists r, h', (map16 (fun x => x * n) A).
    repeat split; try assumption. now intros [] [].
  - destruct Hm as (l & d & -> & El & Ed). unfold mul. now settle_instanceof.
  - destruct Hm as (l & d & -> & El & Ed). unfold mul. now settle_instanceof.
Qed.

Lemma Matrix4_mul_number_scales_sample :
  let A := Mat4 (Vec4 1 2 3 4) (Vec4 5 6 7 8)
                (Vec4 9 10 11 12) (Vec4 13 14 15 16) in
  (exists r h' R,
      Matrix4.mul (VRef 10%nat) (VNumber 3) sample = (Return r, h') /\
      extends sample h' /\ fresh sample r /\ is_Matrix4 h' r R /\
      forall c r', nth4 (column R c) r' = nth4 (column A c) r' * 3) /\
  mul (VRef 10%nat) (VNumber 3) sample
  = Matrix4.mul (VRef 10%nat) (VNumber 3) sample /\
  mul (VNumber 3) (VRef 10%nat) sample
  = Matrix4.mul (VRef 10%nat) (VNumber 3) sample.
Proof.
  apply (Matrix4_mul_number_scales sample (VRef 10%nat)).
  exists 10%nat, 11%nat. repeat split; reflexivity.
Defined.

(** ** Further binary64 facts: negation, sums, differences, infinities *)

Section binary64_laws.

Local Open Scope Z_scope.

Lemma opp_involutive x : (- - x)%float = x.
Proof.
  apply Prim2SF_inj. rewrite !opp_spec.
  destruct (Prim2SF x); cbn; now rewrite ?negb_involutive.
Qed.

Lemma SFadd_comm x y : SF64add x y = SF64add y x.
Proof.
  unfold SF64add, SFadd.
  destruct x as [sx | sx | | sx mx ex], y as [sy | sy | | sy my ey];
    try reflexivity; try (now destruct sx, sy).
  now rewrite Z.min_comm, Z.add_comm.
Qed.

Lemma add_comm x y : (x + y)%float = (y + x)%float.
Proof. apply Prim2SF_inj. rewrite !add_spec. apply SFadd_comm. Qed.

Lemma SFsub_add_opp x y : SF64sub x y = SF64add x (SFopp y).
Proof.
  unfold SF64sub, SF64add, SFsub, SFadd, SFopp.
  destruct x as [sx | sx | | sx mx ex], y as [sy | sy | | sy my ey];
    try reflexivity; now destruct sx, sy.
Qed.

Lemma sub_add_opp x y : (x - y)%float = (x + - y)%float.
Proof.
  apply Prim2SF_inj. rewrite sub_spec, add_spec, opp_spec.
  apply SFsub_add_opp.
Qed.

Lemma sub_diag x : is_finite x = true -> (x - x)%float = 0%float.
Proof.
  intros Hf. apply Prim2SF_inj. rewrite sub_spec, Prim2SF_zero.
  destruct (is_finite_cases x Hf) as [[s ->] | (s & m & e & -> & _)].
  - now destruct s.
  - unfold SF64sub, SFsub. now rewrite Z.sub_diag.
Qed.

Lemma eqb_zero x : (x =? 0)%float = true -> exists s, Prim2SF x = S754_zero s.
Proof.
  rewrite FloatAxioms.eqb_spec, Prim2SF_zero.
  destruct (Prim2SF x) as [s | s | | s m e]; cbn; eauto; try discriminate;
    destruct s; discriminate.
Qed.

Lemma SF2Prim_infinity s x :
  Prim2SF x = S754_infinity s -> x = infinity \/ x = neg_infinity.
Proof.
  intros E. rewrite <- (SF2Prim_Prim2SF x), E. destruct s; cbn; auto.
Qed.

Lemma SF2Prim_nan x : Prim2SF x = S754_nan -> x = nan.
Proof. intros E. now rewrite <- (SF2Prim_Prim2SF x), E. Qed.

(** The reciprocal of a zero is an infinity. *)
Lemma reciprocal_of_zero n :
  (n =? 0)%float = true -> exists s, Prim2SF (1 / n)%float = S754_infinity s.
Proof.
  intros Hz. apply eqb_zero in Hz as [s Hz].
  rewrite div_spec, Prim2SF_one, Hz. cbn. eauto.
Qed.

(** A finite number times an infinity: [NaN] for a zero, an infinity
    otherwise. *)
Lemma mul_infinity x i s :
  is_finite x = true -> Prim2SF i = S754_infinity s ->
  blown_up (x * i)%float x.
Proof.
  intros Hf Hi. unfold blown_up. split; intros Hz.
  - apply eqb_zero in Hz as [sx Hx]. apply SF2Prim_nan.
    now rewrite mul_spec, Hx, Hi.
  - destruct (is_finite_cases x Hf) as [[sx Hx] | (sx & m & e & Hx & _)].
    + rewrite FloatAxioms.eqb_spec, Hx, Prim2SF_zero in Hz. discriminate.
    + apply (SF2Prim_infinity (xorb sx s)).
      now rewrite mul_spec, Hx, Hi.
Qed.

End binary64_laws.

(** ** Further properties: how the vector operators compose *)

Lemma neg_run3 h v a :
  is_Vector3 h v a ->
  neg v h = (Return (VRef (length h)),
             appended h CVector3 (HVector3 (map3 PrimFloat.opp a))).
Proof.
  intros Hv. erewrite neg_Vector3 by eassumption. now apply Vector3_neg_run.
Qed.

Lemma neg_run4 h v a :
  is_Vector4 h v a ->
  neg v h = (Return (VRef (length h)),
             appended h CVector4 (HVector4 (map4 PrimFloat.opp a))).
Proof.
  intros Hv. erewrite neg_Vector4 by eassumption. now apply Vector4_neg_run.
Qed.

Lemma add_run3 h v1 v2 a b :
  is_Vector3 h v1 a -> is_Vector3 h v2 b ->
  add v1 v2 h = (Return (VRef (length h)),
                 appended h CVector3 (HVector3 (zip3 PrimFloat.add a b))).
Proof.
  intros H1 H2. erewrite add_Vector3 by eassumption.
  now apply Vector3_add_run.
Qed.

Lemma add_run4 h v1 v2 a b :
  is_Vector4 h v1 a -> is_Vector4 h v2 b ->
  add v1 v2 h = (Return (VRef (length h)),
                 appended h CVector4 (HVector4 (zip4 PrimFloat.add a b))).
Proof.
  intros H1 H2. erewrite add_Vector4 by eassumption.
  now apply Vector4_add_run.
Qed.

Lemma sub_run3 h v1 v2 a b :
  is_Vector3 h v1 a -> is_Vector3 h v2 b ->
  sub v1 v2 h = (Return (VRef (length h)),
                 appended h CVector3 (HVector3 (zip3 PrimFloat.sub a b))).
Proof.
  intros H1 H2. erewrite sub_Vector3 by eassumption.
  now apply Vector3_sub_run.
Qed.

Lemma sub_run4 h v1 v2 a b :
  is_Vector4 h v1 a -> is_Vector4 h v2 b ->
  sub v1 v2 h = (Return (VRef (length h)),
                 appended h CVector4 (HVector4 (zip4 PrimFloat.sub a b))).
Proof.
  intros H1 H2. erewrite sub_Vector4 by eassumption.
  now apply Vector4_sub_run.
Qed.

(** X4: negating twice gives back exactly the components of the vector,
    whatever they are, for [Vector3] and for [Vector4]. *)
Theorem neg_neg_restores h v a w b :
  is_Vector3 h v a -> is_Vector4 h w b ->
  (exists r h', neg_neg v h = (Return r, h') /\ extends h h' /\
                is_Vector3 h' r a) /\
  (exists r h', neg_neg w h = (Return r, h') /\ extends h h' /\
                is_Vector4 h' r b).
Proof.
  intros Hv Hw. split.
  - set (h1 := appended h CVector3 (HVector3 (map3 PrimFloat.opp a))).
    exists (VRef (length h1)), (appended h1 CVector3 (HVector3 a)).
    split; [| split].
    + unfold neg_neg. step (neg_run3 h v a Hv). fold h1.
      rewrite (neg_run3 h1 _ _ (appended_Vector3 h _)).
      destruct a as [x y z]. unfold map3. cbn [v3x v3y v3z].
      now rewrite !opp_involutive.
    + eauto using extends_trans, extends_appended.
    + apply appended_Vector3.
  - set (h1 := appended h CVector4 (HVector4 (map4 PrimFloat.opp b))).
    exists (VRef (length h1)), (appended h1 CVector4 (HVector4 b)).
    split; [| split].
    + unfold neg_neg. step (neg_run4 h w b Hw). fold h1.
      rewrite (neg_run4 h1 _ _ (appended_Vector4 h _)).
      destruct b as [x y z t]. unfold map4. cbn [v4x v4y v4z v4w].
      now rewrite !opp_involutive.
    + eauto using extends_trans, extends_appended.
    + apply appended_Vector4.
Qed.

Lemma neg_neg_restores_sample :
  (exists r h', neg_neg (VRef 0%nat) sample = (Return r, h') /\
                extends sample h' /\ is_Vector3 h' r (Vec3 1 2 3)) /\
  (exists r h', neg_neg (VRef 4%nat) sample = (Return r, h') /\
                extends sample h' /\ is_Vector4 h' r (Vec4 1 2 3 4)).
Proof.
  apply (neg_neg_restores sample (VRef 0%nat) (Vec3 1 2 3)
           (VRef 4%nat) (Vec4 1 2 3 4)).
  - exists 0%nat, 1%nat. repeat split; reflexivity.
  - exists 4%nat, 5%nat. repeat split; reflexivity.
Defined.

(** X5: [add] is commutative on vectors: [add(a, b)] and [add(b, a)]
    return the same new vector over the same store, for [Vector3] and
    for [Vector4], whatever the components. *)
Theorem add_commutes h v1 v2 a b w1 w2 c d :
  is_Vector3 h v1 a -> is_Vector3 h v2 b ->
  is_Vector4 h w1 c -> is_Vector4 h w2 d ->
  add v1 v2 h = add v2 v1 h /\
  returns_new h (add v1 v2) CVector3 (HVector3 (zip3 PrimFloat.add a b)) /\
  add w1 w2 h = add w2 w1 h /\
  returns_new h (add w1 w2) CVector4 (HVector4 (zip4 PrimFloat.add c d)).
Proof.
  intros H1 H2 H3 H4.
  repeat match goal with |- _ /\ _ => split end.
  - rewrite (add_run3 h v1 v2 a b), (add_run3 h v2 v1 b a) by assumption.
    unfold zip3.
    now rewrite (add_comm (v3x a)), (add_comm (v3y a)), (add_comm (v3z a)).
  - apply appended_returns_new_instance. now apply add_run3.
  - rewrite (add_run4 h w1 w2 c d), (add_run4 h w2 w1 d c) by assumption.
    unfold zip4.
    now rewrite (add_comm (v4x c)), (add_comm (v4y c)),
      (add_comm (v4z c)), (add_comm (v4w c)).
  - apply appended_returns_new_instance. now apply add_run4.
Qed.

Lemma add_commutes_sample :
  add (VRef 0%nat) (VRef 2%nat) bench = add (VRef 2%nat) (VRef 0%nat) bench /\
  returns_new bench (add (VRef 0%nat) (VRef 2%nat)) CVector3
    (HVector3 (zip3 PrimFloat.add (Vec3 1 2 3) (Vec3 0 (-2) 5))) /\
  add (VRef 4%nat) (VRef 6%nat) bench = add (VRef 6%nat) (VRef 4%nat) bench /\
  returns_new bench (add (VRef 4%nat) (VRef 6%nat)) CVector4
    (HVector4 (zip4 PrimFloat.add (Vec4 1 2 3 4) (Vec4 8 7 6 5))).
Proof.
  apply (add_commutes bench (VRef 0%nat) (VRef 2%nat) (Vec3 1 2 3) (Vec3 0 (-2) 5)
           (VRef 4%nat) (VRef 6%nat) (Vec4 1 2 3 4) (Vec4 8 7 6 5)).
  - exists 0%nat, 1%nat. repeat split; reflexivity.
  - exists 2%nat, 3%nat. repeat split; reflexivity.
  - exists 4%nat, 5%nat. repeat split; reflexivity.
  - exists 6%nat, 7%nat. repeat split; reflexivity.
Defined.

(** X6: subtraction is addition of the negated vector: [sub(a, b)] and
    [add(a, neg(b))] return vectors with exactly the same components,
    for [Vector3] and for [Vector4]. *)
Theorem sub_is_add_neg h v1 v2 a b w1 w2 c d :
  is_Vector3 h v1 a -> is_Vector3 h v2 b ->
  is_Vector4 h w1 c -> is_Vector4 h w2 d ->
  (returns_new h (sub v1 v2) CVector3 (HVector3 (zip3 PrimFloat.sub a b)) /\
   exists r h', add_neg v1 v2 h = (Return r, h') /\
                is_Vector3 h' r (zip3 PrimFloat.sub a b)) /\
  (returns_new h (sub w1 w2) CVector4 (HVector4 (zip4 PrimFloat.sub c d)) /\
   exists r h', add_neg w1 w2 h = (Return r, h') /\
                is_Vector4 h' r (zip4 PrimFloat.sub c d)).
Proof.
  intros H1 H2 H3 H4. split; split.
  - apply appended_returns_new_instance. now apply sub_run3.
  - set (h1 := appended h CVector3 (HVector3 (map3 PrimFloat.opp b))).
    exists (VRef (length h1)),
      (appended h1 CVector3 (HVector3 (zip3 PrimFloat.sub a b))).
    split; [| apply appended_Vector3].
    unfold add_neg. step (neg_run3 h v2 b H2). fold h1.
    rewrite (add_run3 h1 v1 _ a (map3 PrimFloat.opp b))
      by (try apply appended_Vector3; now apply is_Vector3_grow).
    unfold zip3, map3. cbn [v3x v3y v3z]. now rewrite !sub_add_opp.
  - apply appended_returns_new_instance. now apply sub_run4.
  - set (h1 := appended h CVector4 (HVector4 (map4 PrimFloat.opp d))).
    exists (VRef (length h1)),
      (appended h1 CVector4 (HVector4 (zip4 PrimFloat.sub c d))).
    split; [| apply appended_Vector4].
    unfold add_neg. step (neg_run4 h w2 d H4). fold h1.
    rewrite (add_run4 h1 w1 _ c (map4 PrimFloat.opp d))
      by (try apply appended_Vector4; now apply is_Vector4_grow).
    unfold zip4, map4. cbn [v4x v4y v4z v4w]. now rewrite !sub_add_opp.
Qed.

Lemma sub_is_add_neg_sample :
  (returns_new bench (sub (VRef 0%nat) (VRef 2%nat)) CVector3
     (HVector3 (zip3 PrimFloat.sub (Vec3 1 2 3) (Vec3 0 (-2) 5))) /\
   exists r h', add_neg (VRef 0%nat) (VRef 2%nat) bench = (Return r, h') /\
                is_Vector3 h' r (zip3 PrimFloat.sub (Vec3 1 2 3) (Vec3 0 (-2) 5))) /\
  (returns_new bench (sub (VRef 4%nat) (VRef 6%nat)) CVector4
     (HVector4 (zip4 PrimFloat.sub (Vec4 1 2 3 4) (Vec4 8 7 6 5))) /\
   exists r h', add_neg (VRef 4%nat) (VRef 6%nat) bench = (Return r, h') /\
                is_Vector4 h' r (zip4 PrimFloat.sub (Vec4 1 2 3 4) (Vec4 8 7 6 5))).
Proof.
  apply (sub_is_add_neg bench (VRef 0%nat) (VRef 2%nat) (Vec3 1 2 3) (Vec3 0 (-2) 5)
           (VRef 4%nat) (VRef 6%nat) (Vec4 1 2 3 4) (Vec4 8 7 6 5)).
  - exists 0%nat, 1%nat. repeat split; reflexivity.
  - exists 2%nat, 3%nat. repeat split; reflexivity.
  - exists 4%nat, 5%nat. repeat split; reflexivity.
  - exists 6%nat, 7%nat. repeat split; reflexivity.
Defined.

Lemma finite3_inv x y z :
  finite3 (Vec3 x y z) = true ->
  is_finite x = true /\ is_finite y = true /\ is_finite z = true.
Proof.
  unfold finite3. cbn [v3x v3y v3z]. intros H.
  apply andb_true_iff in H as [H Hz].
  apply andb_true_iff in H as [Hx Hy]. auto.
Qed.

(** X7: a vector with finite components minus itself is the zero
    vector, every component being [+0]; the operand may be passed twice
    because [sub] only reads it. *)
Theorem sub_self_is_zero h v a w b :
  is_Vector3 h v a -> finite3 a = true ->
  is_Vector4 h w b -> finite4 b = true ->
  returns_new h (sub v v) CVector3 (HVector3 (Vec3 0 0 0)) /\
  returns_new h (sub w w) CVector4 (HVector4 (Vec4 0 0 0 0)).
Proof.
  intros Hv Ha Hw Hb. split; apply appended_returns_new_instance.
  - rewrite (sub_run3 h v v a a) by assumption.
    destruct a as [x y z]. apply finite3_inv in Ha as (Hx & Hy & Hz).
    unfold zip3. cbn [v3x v3y v3z]. now rewrite !sub_diag.
  - rewrite (sub_run4 h w w b b) by assumption.
    destruct b as [x y z t]. apply finite4_inv in Hb as (Hx & Hy & Hz & Ht).
    unfold zip4. cbn [v4x v4y v4z v4w]. now rewrite !sub_diag.
Qed.

Lemma sub_self_is_zero_sample :
  returns_new bench (sub (VRef 2%nat) (VRef 2%nat)) CVector3
    (HVector3 (Vec3 0 0 0)) /\
  returns_new bench (sub (VRef 6%nat) (VRef 6%nat)) CVector4
    (HVector4 (Vec4 0 0 0 0)).
Proof.
  apply (sub_self_is_zero bench (VRef 2%nat) (Vec3 0 (-2) 5)
           (VRef 6%nat) (Vec4 8 7 6 5)).
  - exists 2%nat, 3%nat. repeat split; reflexivity.
  - reflexivity.
  - exists 6%nat, 7%nat. repeat split; reflexivity.
  - reflexivity.
Defined.

(** X8: [div] by a zero does not throw: the reciprocal is an infinity,
    and in the new vector every zero component of a finite vector has
    become [NaN] and every other component an infinity. *)
Theorem div_by_zero h v a n :
  is_Vector3 h v a -> finite3 a = true -> (n =? 0) = true ->
  exists c,
    returns_new h (div v (VNumber n)) CVector3 (HVector3 c) /\
    blown_up (v3x c) (v3x a) /\ blown_up (v3y c) (v3y a) /\
    blown_up (v3z c) (v3z a).
Proof.
  intros Hv Ha Hn.
  exists (map3 (fun x => x * (1 / n)) a). split.
  - apply appended_returns_new_instance.
    erewrite div_Vector3 by eassumption. unfold Vector3.div.
    now apply Vector3_mul_run.
  - destruct (reciprocal_of_zero n Hn) as [s Hs].
    destruct a as [x y z]. apply finite3_inv in Ha as (Hx & Hy & Hz).
    unfold map3. cbn [v3x v3y v3z].
    repeat split; eapply mul_infinity; eassumption.
Qed.

Lemma div_by_zero_sample :
  exists c,
    returns_new bench (div (VRef 2%nat) (VNumber 0)) CVector3 (HVector3 c) /\
    blown_up (v3x c) 0 /\ blown_up (v3y c) (-2) /\ blown_up (v3z c) 5.
Proof.
  apply (div_by_zero bench (VRef 2%nat) (Vec3 0 (-2) 5) 0).
  - exists 2%nat, 3%nat. repeat split; reflexivity.
  - reflexivity.
  - reflexivity.
Defined.

(** X9: multiplying or dividing a vector with finite components by 1
    returns a new vector whose components are equal as numbers to the
    operand's, and identical wherever the component is not a zero. *)
Theorem mul_div_by_one h v a :
  is_Vector3 h v a -> finite3 a = true ->
  exists c,
    returns_new h (mul v (VNumber 1)) CVector3 (HVector3 c) /\
    returns_new h (mul (VNumber 1) v) CVector3 (HVector3 c) /\
    returns_new h (div v (VNumber 1)) CVector3 (HVector3 c) /\
    same_numbers3 c a.
Proof.
  intros Hv Ha.
  exists (map3 (fun x => x * 1) a).
  split; [| split; [| split]]; try apply appended_returns_new_instance.
  - erewrite mul_Vector3_number by eassumption. now apply Vector3_mul_run.
  - erewrite mul_number_Vector3 by eassumption. now apply Vector3_mul_run.
  - erewrite div_Vector3 by eassumption. unfold Vector3.div.
    now apply Vector3_mul_run.
  - destruct a as [x y z]. apply finite3_inv in Ha as (Hx & Hy & Hz).
    unfold same_numbers3, map3. cbn [v3x v3y v3z].
    split; [| split]; apply closeF_same_number; auto with binary64.
Qed.

Lemma mul_div_by_one_sample :
  exists c,
    returns_new bench (mul (VRef 2%nat) (VNumber 1)) CVector3 (HVector3 c) /\
    returns_new bench (mul (VNumber 1) (VRef 2%nat)) CVector3 (HVector3 c) /\
    returns_new bench (div (VRef 2%nat) (VNumber 1)) CVector3 (HVector3 c) /\
    same_numbers3 c (Vec3 0 (-2) 5).
Proof.
  apply (mul_div_by_one bench (VRef 2%nat) (Vec3 0 (-2) 5)).
  - exists 2%nat, 3%nat. repeat split; reflexivity.
  - reflexivity.
Defined.

(** ** Further properties: the matrix products *)

(** X17: [Matrix4.mul(m, v)] on a [Vector4] [v] and a left operand [m]
    whose sixteen scalar getters return returns a new [Vector4] over
    new data, in a store that keeps every object it had; with [m<a><b>]
    what the getter of that name returns and [(x, y, z, w)] the
    components of [v], component [j] of the result is
    [m0j * x + m1j * y + m2j * z + m3j * w]: all sixteen scalars are
    used, each once.  Where [m] is a matrix over backing data, what
    the getters return are its scalar fields. *)
Theorem Matrix4_mul_Vector4_fields h m v f a :
  (forall i j, Matrix4.get_m i j m h = (Return (f i j), h)) ->
  is_Vector4 h v a ->
  returns_new h (Matrix4.mul m v) CVector4 (HVector4 (combine f a)) /\
  forall A, is_Matrix4 h m A -> forall i j, f i j = field A i j.
Proof.
  intros Hm Hv. split.
  - apply appended_returns_new_instance.
    now apply Matrix4_mul_body_reads.
  - intros A HA i j.
    pose proof (Matrix4_get_m h m A i j HA) as E.
    rewrite Hm in E. now inversion E.
Qed.

Lemma Matrix4_mul_Vector4_fields_sample :
  let f := field (Mat4 (Vec4 1 2 3 4) (Vec4 5 6 7 8)
                       (Vec4 9 10 11 12) (Vec4 13 14 15 16)) in
  returns_new sample (Matrix4.mul (VRef 10%nat) (VRef 4%nat)) CVector4
    (HVector4 (combine f (Vec4 1 2 3 4))) /\
  forall A, is_Matrix4 sample (VRef 10%nat) A -> forall i j, f i j = field A i j.
Proof.
  apply (Matrix4_mul_Vector4_fields sample (VRef 10%nat) (VRef 4%nat)).
  - intros [] []; reflexivity.
  - exists 4%nat, 5%nat. repeat split; reflexivity.
Defined.

(** X18: [Matrix4.mul(m1, m2)] on two matrices returns a new matrix
    built column by column: column [i] of the result is what
    [Matrix4.mul(m1, v)] returns for a vector [v] holding column [i] of
    [m2], so in the scalar fields of [m1] by name its component [j] is
    [m0j * x + m1j * y + m2j * z + m3j * w] for [(x, y, z, w)] that
    column.  The operands keep what they held. *)
Theorem Matrix4_mul_Matrix4_by_columns h m1 m2 A B :
  is_Matrix4 h m1 A -> is_Matrix4 h m2 B ->
  exists r h' R,
    Matrix4.mul m1 m2 h = (Return r, h') /\
    extends h h' /\ fresh h r /\ is_Matrix4 h' r R /\
    is_Matrix4 h' m1 A /\ is_Matrix4 h' m2 B /\
    (forall i, column R i = combine (field A) (column B i)) /\
    (forall i v, is_Vector4 h' v (column B i) ->
       exists r' h'',
         Matrix4.mul m1 v h' = (Return r', h'') /\
         is_Vector4 h'' r' (column R i)).
Proof.
  intros H1 H2.
  destruct (Matrix4_mul_Matrix4 h m1 m2 A B H1 H2) as (r & h' & E & X & F & HR).
  exists r, h', (combine_columns (field A) B).
  assert (C : forall i, column (combine_columns (field A) B) i
                        = combine (field A) (column B i)) by now intros [].
  repeat match goal with |- _ /\ _ => split end;
    eauto using is_Matrix4_extends.
  intros i v Hv. eexists _, _. split.
  - apply Matrix4_mul_Vector4 with (A := A) (a := column B i);
      eauto using is_Matrix4_extends.
  - rewrite C. apply appended_Vector4.
Qed.

Lemma Matrix4_mul_Matrix4_by_columns_sample :
  let A := Mat4 (Vec4 1 2 3 4) (Vec4 5 6 7 8)
                (Vec4 9 10 11 12) (Vec4 13 14 15 16) in
  let B := Mat4 (Vec4 2 0 0 0) (Vec4 0 2 0 0) (Vec4 0 0 2 0) (Vec4 1 1 1 1) in
  exists r h' R,
    Matrix4.mul (VRef 10%nat) (VRef 12%nat) sample = (Return r, h') /\
    extends sample h' /\ fresh sample r /\ is_Matrix4 h' r R /\
    is_Matrix4 h' (VRef 10%nat) A /\ is_Matrix4 h' (VRef 12%nat) B /\
    (forall i, column R i = combine (field A) (column B i)) /\
    (forall i v, is_Vector4 h' v (column B i) ->
       exists r' h'',
         Matrix4.mul (VRef 10%nat) v h' = (Return r', h'') /\
         is_Vector4 h'' r' (column R i)).
Proof.
  apply (Matrix4_mul_Matrix4_by_columns sample (VRef 10%nat) (VRef 12%nat)).
  - exists 10%nat, 11%nat. repeat split; reflexivity.
  - exists 12%nat, 13%nat. repeat split; reflexivity.
Defined.

(** *** The identity matrix *)

Lemma add_zero_zero a b : zeroF a -> zeroF b -> zeroF (a + b).
Proof.
  unfold zeroF. intros [sa Ha] [sb Hb]. rewrite add_spec, Ha, Hb.
  destruct sa, sb; cbn; eauto.
Qed.

#[local] Hint Resolve add_zero_zero : binary64.

Lemma finite16_inv c0 c1 c2 c3 :
  finite16 (Mat4 c0 c1 c2 c3) = true ->
  finite4 c0 = true /\ finite4 c1 = true /\
  finite4 c2 = true /\ finite4 c3 = true.
Proof.
  unfold finite16. cbn [col0 col1 col2 col3]. intros H.
  apply andb_true_iff in H as [H H3].
  apply andb_true_iff in H as [H H2].
  apply andb_true_iff in H as [H0 H1]. auto.
Qed.

(** Every scalar field of a matrix of finite numbers is finite. *)
Lemma field_finite A a b :
  finite16 A = true -> is_finite (field A a b) = true.
Proof.
  destruct A as [c0 c1 c2 c3]. intros Hf.
  apply finite16_inv in Hf as (H0 & H1 & H2 & H3).
  destruct c0, c1, c2, c3.
  apply finite4_inv in H0 as (? & ? & ? & ?).
  apply finite4_inv in H1 as (? & ? & ? & ?).
  apply finite4_inv in H2 as (? & ? & ? & ?).
  apply finite4_inv in H3 as (? & ? & ? & ?).
  destruct a, b; assumption.
Qed.

Lemma combine_identity_l a :
  finite4 a = true -> same_numbers (combine (field identity4) a) a.
Proof.
  destruct a as [x y z w]. intros Hf.
  apply finite4_inv in Hf as (Hx & Hy & Hz & Hw).
  unfold same_numbers, combine, field, identity4.
  cbn [v4x v4y v4z v4w col0 col1 col2 col3 column nth4].
  split; [| split; [| split]];
    apply closeF_same_number; auto 10 with binary64.
Qed.

Lemma combine_columns_identity_l A :
  finite16 A = true ->
  same_numbers16 (combine_columns (field identity4) A) A.
Proof.
  destruct A as [c0 c1 c2 c3]. intros Hf.
  apply finite16_inv in Hf as (H0 & H1 & H2 & H3).
  unfold same_numbers16. cbn [col0 col1 col2 col3 combine_columns].
  split; [| split; [| split]]; now apply combine_identity_l.
Qed.

Lemma combine_columns_identity_r A i :
  finite16 A = true ->
  same_numbers (column (combine_columns (field A) identity4) i) (fields A i).
Proof.
  intros Hf.
  pose proof (fun a b => field_finite A a b Hf) as F.
  unfold same_numbers, fields.
  destruct i;
    cbn [column combine_columns identity4 col0 col1 col2 col3
         combine v4x v4y v4z v4w];
    (split; [| split; [| split]]);
    apply closeF_same_number; auto 10 with binary64.
Qed.

(** X10: [Matrix4.mul] with the identity matrix, on finite operands.
    Identity times a [Vector4] returns a vector, and identity times a
    matrix a matrix, whose components are equal as numbers to the right
    operand's and identical wherever the component is not a zero.  A
    matrix [m] times the identity returns a matrix whose column [a]
    holds, up to the sign of zero, the scalar fields
    [m<a>0, m<a>1, m<a>2, m<a>3] of [m]. *)
Theorem Matrix4_mul_identity h i v a m A :
  is_Matrix4 h i identity4 ->
  is_Vector4 h v a -> finite4 a = true ->
  is_Matrix4 h m A -> finite16 A = true ->
  (exists r h' c,
      Matrix4.mul i v h = (Return r, h') /\
      is_Vector4 h' r c /\ same_numbers c a) /\
  (exists r h' R,
      Matrix4.mul i m h = (Return r, h') /\
      is_Matrix4 h' r R /\ same_numbers16 R A) /\
  (exists r h' R,
      Matrix4.mul m i h = (Return r, h') /\
      is_Matrix4 h' r R /\
      forall a, same_numbers (column R a) (fields A a)).
Proof.
  intros Hi Hv Ha Hm HA. split; [| split].
  - eexists _, _, _. split; [| split].
    + now apply Matrix4_mul_Vector4 with (A := identity4) (a := a).
    + apply appended_Vector4.
    + now apply combine_identity_l.
  - destruct (Matrix4_mul_Matrix4 h i m identity4 A Hi Hm)
      as (r & h' & E & _ & _ & HR).
    exists r, h', (combine_columns (field identity4) A).
    split; [assumption | split; [assumption |]].
    now apply combine_columns_identity_l.
  - destruct (Matrix4_mul_Matrix4 h m i A identity4 Hm Hi)
      as (r & h' & E & _ & _ & HR).
    exists r, h', (combine_columns (field A) identity4).
    split; [assumption | split; [assumption |]].
    intros c. now apply combine_columns_identity_r.
Qed.

Lemma Matrix4_mul_identity_sample :
  let A := Mat4 (Vec4 1 2 3 4) (Vec4 5 6 7 8)
                (Vec4 9 10 11 12) (Vec4 13 14 15 16) in
  (exists r h' c,
      Matrix4.mul (VRef 8%nat) (VRef 6%nat) bench = (Return r, h') /\
      is_Vector4 h' r c /\ same_numbers c (Vec4 8 7 6 5)) /\
  (exists r h' R,
      Matrix4.mul (VRef 8%nat) (VRef 10%nat) bench = (Return r, h') /\
      is_Matrix4 h' r R /\ same_numbers16 R A) /\
  (exists r h' R,
      Matrix4.mul (VRef 10%nat) (VRef 8%nat) bench = (Return r, h') /\
      is_Matrix4 h' r R /\
      forall a, same_numbers (column R a) (fields A a)).
Proof.
  apply (Matrix4_mul_identity bench (VRef 8%nat) (VRef 6%nat) (Vec4 8 7 6 5)
           (VRef 10%nat)).
  - exists 8%nat, 9%nat. repeat split; reflexivity.
  - exists 6%nat, 7%nat. repeat split; reflexivity.
  - reflexivity.
  - exists 10%nat, 11%nat. repeat split; reflexivity.
  - reflexivity.
Defined.

(** ** Further properties: constructors, getters and setters *)

Lemma write_seen_through_alias_sample :
  exists v' h1 h2,
    from_data_of (VRef 0%nat) sample = (Return v', h1) /\
    Vector3.set_x v' 9 h1 = (Return tt, h2) /\
    Vector3.get_x (VRef 0%nat) h2 = (Return 9, h2).
Proof.
  apply (write_seen_through_alias sample (VRef 0%nat) (Vec3 1 2 3) 9).
  exists 0%nat, 1%nat. repeat split; reflexivity.
Defined.

(** [new Vector3(v)] on an instance asks the host for a copy of its
    components. *)
Lemma Vector3_new_copy h v a :
  is_Vector3 h v a ->
  Vector3.new v VUndefined VUndefined h
  = (Return (VRef (length h)), appended h CVector3 (HVector3 a)).
Proof.
  intros (l & d & -> & El & Ed).
  unfold Vector3.new, new_instance.
  unfold bind at 1. unfold alloc at 1.
  set (h1 := h ++ [Instance CVector3 VUndefined]).
  assert (El1 : h1 !! l = Some (Instance CVector3 (VRef d)))
    by now apply lookup_grow.
  assert (Ed1 : h1 !! d = Some (Userdata (HVector3 a)))
    by now apply lookup_grow.
  unfold Vector3.constructor, undefined_number_or. cbn [typeof String.eqb].
  step (instanceof_ref _ _ _ _ CVector3 El1). cbv iota delta [class_eqb].
  unfold lua.vmath.vector3, lua.components3.
  step (load_ref _ _ _ El1). step (load_ref _ _ _ Ed1).
  unfold bind at 1, ret at 1. cbv beta iota.
  unfold bind at 1. unfold alloc at 1.
  unfold h1. rewrite <- app_assoc. simpl app.
  erewrite bind_Return
    by (erewrite set_data_ref by apply lookup_alloc_1; reflexivity).
  rewrite insert_alloc_1, length_app. simpl length.
  now rewrite Nat.add_1_r.
Qed.

(** X12: [new Vector3(v)] on an instance is a copy: a write to the copy
    is not seen through [v], which keeps its components. *)
Theorem copy_is_independent h v a n :
  is_Vector3 h v a ->
  exists h',
    copy_then_set_x v n h = (Return (v3x a), h') /\ is_Vector3 h' v a.
Proof.
  intros Hv.
  set (h1 := appended h CVector3 (HVector3 a)).
  set (h2 := <[S (length h) := Userdata (HVector3 (Vec3 n (v3y a) (v3z a)))]> h1).
  assert (Hv2 : is_Vector3 h2 v a).
  { destruct Hv as (l & d & -> & El & Ed). exists l, d.
    split; [reflexivity |].
    pose proof (lookup_lt_Some _ _ _ El). pose proof (lookup_lt_Some _ _ _ Ed).
    unfold h2. rewrite !list_lookup_insert_ne by lia.
    split; now apply appended_lookup. }
  exists h2. split; [| assumption].
  unfold copy_then_set_x.
  step (Vector3_new_copy h v a Hv). fold h1.
  erewrite bind_Return
    by (eapply write_field with (c := CVector3) (u := HVector3 a);
        [apply appended_instance | apply appended_data | reflexivity]).
  fold h2.
  destruct Hv2 as (l & d & -> & El & Ed).
  now apply read_field with (c := CVector3) (d := d) (u := HVector3 a).
Qed.

Lemma copy_is_independent_sample :
  exists h',
    copy_then_set_x (VRef 0%nat) 9 sample = (Return 1, h') /\
    is_Vector3 h' (VRef 0%nat) (Vec3 1 2 3).
Proof.
  apply (copy_is_independent sample (VRef 0%nat) (Vec3 1 2 3) 9).
  exists 0%nat, 1%nat. repeat split; reflexivity.
Defined.

Lemma Matrix4_new_no_data h :
  Matrix4.new VUndefined VUndefined VUndefined VUndefined h
  = (Return (VRef (length h)), h ++ [Instance CMatrix4 VUndefined]).
Proof.
  unfold Matrix4.new, new_instance.
  unfold bind at 1. unfold alloc at 1.
  unfold Matrix4.constructor.
  unfold bind at 1.
  change (instanceof VUndefined CMatrix4) with (@ret bool false).
  change (instanceof VUndefined CVector4) with (@ret bool false).
  unfold bind at 1, ret at 1. cbv beta iota.
  unfold bind at 1, ret at 1. cbv beta iota.
  erewrite set_data_ref by apply lookup_alloc_1.
  now rewrite insert_alloc_1.
Qed.

(** X13: [new Matrix4()] without arguments calls no host constructor:
    the new instance has [undefined] for data and the store gains that
    one object only.  On it every scalar getter and every column getter
    throws, and so does [Matrix4.mul] with it as the left operand of a
    vector or as the right operand of a matrix. *)
Theorem Matrix4_new_without_arguments h :
  let m := VRef (length h) in
  let h' := h ++ [Instance CMatrix4 VUndefined] in
  Matrix4.new VUndefined VUndefined VUndefined VUndefined h = (Return m, h') /\
  get_data m h' = (Return VUndefined, h') /\
  (forall c r, Matrix4.get_m c r m h' = (Throw Fault, h')) /\
  (forall i, Matrix4.get_c i m h' = (Throw Fault, h')) /\
  (forall v a, is_Vector4 h' v a -> Matrix4.mul m v h' = (Throw Fault, h')) /\
  (forall m1 A, is_Matrix4 h' m1 A -> Matrix4.mul m1 m h' = (Throw Fault, h')).
Proof.
  intros m h'.
  assert (Em : h' !! length h = Some (Instance CMatrix4 VUndefined))
    by apply lookup_alloc_1.
  assert (Ed : get_data m h' = (Return VUndefined, h'))
    by now apply get_data_ref with (c := CMatrix4).
  assert (Eg : forall c r, Matrix4.get_m c r m h' = (Throw Fault, h')).
  { intros c r. unfold Matrix4.get_m. now step Ed. }
  assert (Ec : forall i, Matrix4.get_c i m h' = (Throw Fault, h')).
  { intros i. unfold Matrix4.get_c. now step Ed. }
  repeat match goal with |- _ /\ _ => split end; try assumption.
  - apply Matrix4_new_no_data.
  - intros v a (l & d & -> & El & Edv).
    unfold Matrix4.mul, Matrix4.mul_body at 1. settle_instanceof.
    now rewrite (bind_Throw _ _ _ _ _ (Eg I0 I0)).
  - intros m1 A _.
    unfold Matrix4.mul, Matrix4.mul_body at 1. unfold m. settle_instanceof.
    now rewrite (bind_Throw _ _ _ _ _ (Ec I0)).
Qed.

(** X14: a matrix constructed from four [Vector4] columns reads them
    back: the column getter [c<i>] returns a new [Vector4] with the
    components of the [i]-th argument, in a store that keeps every
    object it had. *)
Theorem Matrix4_columns_round_trip h c0 c1 c2 c3 a0 a1 a2 a3 i :
  is_Vector4 h c0 a0 -> is_Vector4 h c1 a1 ->
  is_Vector4 h c2 a2 -> is_Vector4 h c3 a3 ->
  exists r h',
    columns_then_read c0 c1 c2 c3 i h = (Return r, h') /\
    extends h h' /\ fresh h r /\
    is_Vector4 h' r (column (Mat4 a0 a1 a2 a3) i).
Proof.
  intros H0 H1 H2 H3.
  set (A := Mat4 a0 a1 a2 a3).
  set (h1 := appended h CMatrix4 (HMatrix4 A)).
  assert (Hm : is_Matrix4 h1 (VRef (length h)) A) by apply appended_Matrix4.
  assert (X : extends h h1) by apply extends_appended.
  exists (VRef (S (length h1))),
    (h1 ++ [Userdata (HVector4 (column A i));
            Instance CVector4 (VRef (length h1))]).
  split; [| split; [| split]].
  - unfold columns_then_read.
    step (Matrix4_new_columns h c0 c1 c2 c3 a0 a1 a2 a3 H0 H1 H2 H3).
    now apply Matrix4_get_c.
  - eapply extends_trans; [eassumption | now eexists].
  - exists (S (length h1)). split; [reflexivity |].
    apply lookup_ge_None. unfold h1, appended. rewrite length_app. lia.
  - apply Matrix4_get_c_Vector4.
Qed.

Lemma Matrix4_columns_round_trip_sample :
  exists r h',
    columns_then_read (VRef 4%nat) (VRef 6%nat) (VRef 6%nat) (VRef 4%nat) I1 bench
    = (Return r, h') /\
    extends bench h' /\ fresh bench r /\ is_Vector4 h' r (Vec4 8 7 6 5).
Proof.
  apply (Matrix4_columns_round_trip bench
           (VRef 4%nat) (VRef 6%nat) (VRef 6%nat) (VRef 4%nat)
           (Vec4 1 2 3 4) (Vec4 8 7 6 5) (Vec4 8 7 6 5) (Vec4 1 2 3 4) I1).
  - exists 4%nat, 5%nat. repeat split; reflexivity.
  - exists 6%nat, 7%nat. repeat split; reflexivity.
  - exists 6%nat, 7%nat. repeat split; reflexivity.
  - exists 4%nat, 5%nat. repeat split; reflexivity.
Defined.

Lemma is_Vector3_written h l d a a' :
  h !! l = Some (Instance CVector3 (VRef d)) ->
  h !! d = Some (Userdata (HVector3 a)) ->
  is_Vector3 (<[d := Userdata (HVector3 a')]> h) (VRef l) a'.
Proof.
  intros El Ed. exists l, d. split; [reflexivity | split].
  - rewrite list_lookup_insert_ne; [assumption |].
    intros ->. rewrite El in Ed. discriminate.
  - apply list_lookup_insert_eq. eapply lookup_lt_Some. eassumption.
Qed.

Lemma read_Vector3 h v a :
  is_Vector3 h v a ->
  bind (Vector3.get_x v) (fun x =>
    bind (Vector3.get_y v) (fun y =>
      bind (Vector3.get_z v) (fun z => ret (Vec3 x y z)))) h
  = (Return a, h).
Proof.
  intros (l & d & -> & El & Ed).
  unfold Vector3.get_x, Vector3.get_y, Vector3.get_z.
  read_getters. now destruct a.
Qed.

(** X15: a setter followed by the getters: after [v.x = n] the vector
    reads [(n, y, z)], after [v.y = n] it reads [(x, n, z)] and after
    [v.z = n] it reads [(x, y, n)]; the other components are untouched
    and the store has as many objects as before. *)
Theorem Vector3_set_then_read h v a n :
  is_Vector3 h v a ->
  (exists h', set_then_read Vector3.set_x v n h
              = (Return (Vec3 n (v3y a) (v3z a)), h') /\ length h' = length h) /\
  (exists h', set_then_read Vector3.set_y v n h
              = (Return (Vec3 (v3x a) n (v3z a)), h') /\ length h' = length h) /\
  (exists h', set_then_read Vector3.set_z v n h
              = (Return (Vec3 (v3x a) (v3y a) n), h') /\ length h' = length h).
Proof.
  intros (l & d & -> & El & Ed).
  split; [| split]; eexists; (split; [| apply length_insert]);
    unfold set_then_read;
    (erewrite bind_Return
       by (eapply write_field with (c := CVector3) (u := HVector3 a);
           [eassumption | eassumption | reflexivity]));
    apply read_Vector3; now apply is_Vector3_written with (a := a).
Qed.

Lemma Vector3_set_then_read_sample :
  (exists h', set_then_read Vector3.set_x (VRef 0%nat) 9 sample
              = (Return (Vec3 9 2 3), h') /\ length h' = length sample) /\
  (exists h', set_then_read Vector3.set_y (VRef 0%nat) 9 sample
              = (Return (Vec3 1 9 3), h') /\ length h' = length sample) /\
  (exists h', set_then_read Vector3.set_z (VRef 0%nat) 9 sample
              = (Return (Vec3 1 2 9), h') /\ length h' = length sample).
Proof.
  apply (Vector3_set_then_read sample (VRef 0%nat) (Vec3 1 2 3) 9).
  exists 0%nat, 1%nat. repeat split; reflexivity.
Defined.

(** ** Further properties: which calls return *)

Lemma appended_returns h (call : M value) c u :
  call h = (Return (VRef (length h)), appended h c u) ->
  exists r h', call h = (Return r, h') /\ extends h h' /\ fresh h r.
Proof.
  intros E. eexists _, _. split; [eassumption | split].
  - apply extends_appended.
  - apply extends_fresh, extends_refl.
Qed.

Lemma mul_Quaternion h q1 q2 a b :
  is_Quaternion h q1 a -> is_Quaternion h q2 b ->
  mul q1 q2 h = Quaternion.mul q1 q2 h.
Proof.
  intros (l1 & d1 & -> & El1 & Ed1) (l2 & d2 & -> & El2 & Ed2).
  unfold mul. now settle_instanceof.
Qed.

Lemma mul_Matrix4_any h m A b :
  is_Matrix4 h m A ->
  (exists n, b = VNumber n) \/ (exists a, is_Vector4 h b a)
  \/ (exists B, is_Matrix4 h b B) ->
  mul m b h = Matrix4.mul m b h.
Proof.
  intros (l & d & -> & El & Ed) [[n ->] | [[a Hb] | [B Hb]]];
    try destruct Hb as (lb & db & -> & Elb & Edb);
    unfold mul; now settle_instanceof.
Qed.

Lemma mul_any_Matrix4 h m A b :
  is_Matrix4 h m A ->
  (exists n, b = VNumber n) \/ (exists a, is_Vector4 h b a) ->
  mul b m h = Matrix4.mul m b h.
Proof.
  intros (l & d & -> & El & Ed) [[n ->] | [a Hb]];
    try destruct Hb as (lb & db & -> & Elb & Edb);
    unfold mul; now settle_instanceof.
Qed.

Lemma kind_of_Vector3 h v a : is_Vector3 h v a -> kind_of h v = KClass CVector3.
Proof. intros (l & d & -> & El & _). cbn. now rewrite El. Qed.

Lemma kind_of_Vector4 h v a : is_Vector4 h v a -> kind_of h v = KClass CVector4.
Proof. intros (l & d & -> & El & _). cbn. now rewrite El. Qed.

Lemma kind_of_Quaternion h v a :
  is_Quaternion h v a -> kind_of h v = KClass CQuaternion.
Proof. intros (l & d & -> & El & _). cbn. now rewrite El. Qed.

Lemma kind_of_Matrix4 h v a : is_Matrix4 h v a -> kind_of h v = KClass CMatrix4.
Proof. intros (l & d & -> & El & _). cbn. now rewrite El. Qed.

Lemma Matrix4_mul_returns h m1 b A :
  is_Matrix4 h m1 A ->
  (exists n, b = VNumber n) \/ (exists a, is_Vector4 h b a)
  \/ (exists B, is_Matrix4 h b B) ->
  exists r h', Matrix4.mul m1 b h = (Return r, h') /\ extends h h' /\ fresh h r.
Proof.
  intros Hm [[n ->] | [[a Hb] | [B Hb]]].
  - destruct (Matrix4_mul_number h m1 A n Hm) as (r & h' & E & X & F & _).
    eauto.
  - eapply appended_returns. eapply Matrix4_mul_Vector4; eassumption.
  - destruct (Matrix4_mul_Matrix4 h m1 b A B Hm Hb) as (r & h' & E & X & F & _).
    eauto.
Qed.

(** X16: on operands that are numbers or instances over their backing
    values, a dispatched call returns exactly when the combination of
    operand types has a defined operation: then the result is a new
    object and the store only grows; otherwise the call throws a
    TypeError and the store is unchanged. *)
Theorem dispatch_returns_iff_defined op h a b :
  well_formed h a -> well_formed h b ->
  if defined_operation op (kind_of h a) (kind_of h b)
  then exists r h', dispatch op a b h = (Return r, h') /\
                    extends h h' /\ fresh h r
  else exists message, dispatch op a b h = (Throw (TypeError message), h).
Proof.
  intros Ha Hb.
  destruct (defined_operation op (kind_of h a) (kind_of h b)) eqn:Hdef;
    [| eexists; now apply dispatch_mismatch].
  destruct Ha as [[n ->] | [[x Ha] | [[x Ha] | [[x Ha] | [x Ha]]]]];
    [ | pose proof (kind_of_Vector3 _ _ _ Ha) as Ka
      | pose proof (kind_of_Vector4 _ _ _ Ha) as Ka
      | pose proof (kind_of_Quaternion _ _ _ Ha) as Ka
      | pose proof (kind_of_Matrix4 _ _ _ Ha) as Ka ];
    try rewrite Ka in Hdef;
    (destruct Hb as [[k ->] | [[y Hb] | [[y Hb] | [[y Hb] | [y Hb]]]]];
     [ | pose proof (kind_of_Vector3 _ _ _ Hb) as Kb
       | pose proof (kind_of_Vector4 _ _ _ Hb) as Kb
       | pose proof (kind_of_Quaternion _ _ _ Hb) as Kb
       | pose proof (kind_of_Matrix4 _ _ _ Hb) as Kb ];
     try rewrite Kb in Hdef);
    destruct op; try discriminate Hdef; cbn [dispatch].
  all: try (erewrite mul_any_Matrix4 by eauto;
            eapply Matrix4_mul_returns; eauto).
  all: try (erewrite mul_Matrix4_any by eauto;
            eapply Matrix4_mul_returns; eauto).
  all: eapply appended_returns.
  all: first
    [ erewrite mul_number_Vector3 by eassumption; eapply Vector3_mul_run; eassumption
    | erewrite mul_number_Vector4 by eassumption; eapply Vector4_mul_run; eassumption
    | erewrite neg_Vector3 by eassumption; eapply Vector3_neg_run; eassumption
    | erewrite neg_Vector4 by eassumption; eapply Vector4_neg_run; eassumption
    | erewrite mul_Vector3_number by eassumption; eapply Vector3_mul_run; eassumption
    | erewrite mul_Vector4_number by eassumption; eapply Vector4_mul_run; eassumption
    | erewrite div_Vector3 by eassumption; unfold Vector3.div;
      eapply Vector3_mul_run; eassumption
    | erewrite div_Vector4 by eassumption; unfold Vector4.div;
      eapply Vector4_mul_run; eassumption
    | erewrite add_Vector3 by eassumption; eapply Vector3_add_run; eassumption
    | erewrite add_Vector4 by eassumption; eapply Vector4_add_run; eassumption
    | erewrite sub_Vector3 by eassumption; eapply Vector3_sub_run; eassumption
    | erewrite sub_Vector4 by eassumption; eapply Vector4_sub_run; eassumption
    | erewrite mul_Quaternion by eassumption; eapply Quaternion_mul_run; eassumption ].
Qed.

Lemma dispatch_returns_iff_defined_sample :
  (exists r h', dispatch OpMul (VRef 4%nat) (VRef 10%nat) bench = (Return r, h') /\
                extends bench h' /\ fresh bench r) /\
  (exists message,
      dispatch OpAdd (VRef 0%nat) (VRef 4%nat) bench
      = (Throw (TypeError message), bench)).
Proof.
  split.
  - apply (dispatch_returns_iff_defined OpMul bench (VRef 4%nat) (VRef 10%nat)).
    + right; right; left. exists (Vec4 1 2 3 4).
      exists 4%nat, 5%nat. repeat split; reflexivity.
    + right; right; right; right.
      eexists. exists 10%nat, 11%nat. repeat split; reflexivity.
  - apply (dispatch_returns_iff_defined OpAdd bench (VRef 0%nat) (VRef 4%nat)).
    + right; left. exists (Vec3 1 2 3).
      exists 0%nat, 1%nat. repeat split; reflexivity.
    + right; right; left. exists (Vec4 1 2 3 4).
      exists 4%nat, 5%nat. repeat split; reflexivity.
Defined.
